(** * GenAI report generator backend: a shallow embedding

  The development follows the Python sources of the backend
  ([auth.py], [ai_service.py], [models.py], [main.py]):

  - Python values are modelled by their Rocq counterparts: [str] by
    [string] (a sequence of bytes, UTF-8 for the few non-ASCII characters
    of the demo template), [int] by [Z], [Optional[T]] by [option T];
  - a Python call either returns or raises: [result A];
  - the relational store, the [reports/] directory and the process
    environment are explicit state, threaded through the handlers. *)

From Stdlib Require Import ZArith QArith Ascii String DecimalString DecimalZ.
From stdpp Require Import gmap strings list fin_maps relations.

Local Open Scope Z_scope.
Local Open Scope string_scope.

(** ** Python builtins used by the backend *)

Module Py.

(** Exceptions raised by the code and by the libraries it calls.  The
    PyJWT exceptions are all subclasses of [jwt.InvalidTokenError]. *)
Inductive jwt_error :=
| ExpiredSignatureError
| InvalidSignatureError
| InvalidAlgorithmError
| DecodeError
| ImmatureSignatureError
| InvalidIssuedAtError
| InvalidAudienceError
| InvalidSubjectError
| InvalidJTIError.

Inductive exn :=
| HTTPException (status_code : Z) (detail : string)
| JwtError (e : jwt_error)
| KeyError (key : string)
| ValueError (msg : string)
| TypeError (msg : string)
| AttributeError (msg : string)
| IndexError (msg : string)
| IntegrityError (msg : string)
| OSError (msg : string)
| APIError (msg : string).

Inductive result (A : Type) :=
| Ok (a : A)
| Raise (e : exn).
Arguments Ok {A} a.
Arguments Raise {A} e.

#[export] Instance result_ret : MRet result := λ A a, Ok a.

(** Sequencing: the first exception raised aborts what follows. *)
#[export] Instance result_bind : MBind result := λ A B k r,
  match r with
  | Ok a => k a
  | Raise e => Raise e
  end.

(** [try: body except Exception as e: handler e] *)
Definition try_except {A} (body : result A) (handler : exn → result A) : result A :=
  match body with
  | Ok a => Ok a
  | Raise e => handler e
  end.

(** The message PyJWT gives each of its errors. *)
Definition str_jwt_error (e : jwt_error) : string :=
  match e with
  | ExpiredSignatureError => "Signature has expired"
  | InvalidSignatureError => "Signature verification failed"
  | InvalidAlgorithmError => "The specified alg value is not allowed"
  | DecodeError => "Not enough segments"
  | ImmatureSignatureError => "The token is not yet valid (iat)"
  | InvalidIssuedAtError => "Issued At claim (iat) must be an integer."
  | InvalidAudienceError => "Invalid audience"
  | InvalidSubjectError => "Subject must be a string"
  | InvalidJTIError => "JWT ID must be a string"
  end.

(** [str(e)] for the exceptions above. *)
Definition str_exn (e : exn) : string :=
  match e with
  | HTTPException c d => d
  | JwtError e => str_jwt_error e
  | KeyError k => "'" +:+ k +:+ "'"
  | ValueError m | TypeError m | AttributeError m | IndexError m
  | IntegrityError m | OSError m | APIError m => m
  end.

(** Truth value of a string: [bool(s)]. *)
Definition truthy (s : string) : bool :=
  match s with
  | EmptyString => false
  | String _ _ => true
  end.

(** Truth value of an [Optional[str]]. *)
Definition truthy_opt (o : option string) : bool :=
  match o with
  | None => false
  | Some s => truthy s
  end.

(** *** Text as UTF-8

    A [str] is held as the bytes of its UTF-8 encoding.  The functions
    below read the code points back where the builtins depend on them. *)

Definition code (c : ascii) : Z := Z.of_nat (nat_of_ascii c).

(** Continuation bytes and the lead bytes of two-, three- and four-byte
    sequences. *)
Definition is_cont (c : ascii) : bool := Z.leb 128 (code c) && Z.ltb (code c) 192.
Definition lead2 (c : ascii) : bool := Z.leb 194 (code c) && Z.ltb (code c) 224.
Definition lead3 (c : ascii) : bool := Z.leb 224 (code c) && Z.ltb (code c) 240.
Definition lead4 (c : ascii) : bool := Z.leb 240 (code c) && Z.ltb (code c) 245.

Definition cp2 (a b : ascii) : Z := (code a - 192) * 64 + (code b - 128).
Definition cp3 (a b c : ascii) : Z :=
  (code a - 224) * 4096 + (code b - 128) * 64 + (code c - 128).
Definition cp4 (a b c d : ascii) : Z :=
  (code a - 240) * 262144 + (code b - 128) * 4096 + (code c - 128) * 64
  + (code d - 128).

(** [ch.isspace()] for a code point: U+0009-U+000D, U+001C-U+0020, U+0085,
    U+00A0, U+1680, U+2000-U+200A, U+2028, U+2029, U+202F, U+205F and
    U+3000. *)
Definition unicode_isspace (cp : Z) : bool :=
  (Z.leb 9 cp && Z.leb cp 13) || (Z.leb 28 cp && Z.leb cp 32) ||
  Z.eqb cp 133 || Z.eqb cp 160 || Z.eqb cp 5760 ||
  (Z.leb 8192 cp && Z.leb cp 8202) || Z.eqb cp 8232 || Z.eqb cp 8233 ||
  Z.eqb cp 8239 || Z.eqb cp 8287 || Z.eqb cp 12288.

(** [c.isspace()] on the ASCII range: tab, line feed, vertical tab, form
    feed, carriage return, the four separators 0x1c-0x1f and space. *)
Definition isspace (c : ascii) : bool :=
  let n := nat_of_ascii c in
  ((9 <=? n)%nat && (n <=? 13)%nat) || ((28 <=? n)%nat && (n <=? 32)%nat).

(** The whitespace characters that take two bytes (U+0085, U+00A0) and
    three bytes (the others beyond ASCII). *)
Definition isspace2 (a b : ascii) : bool :=
  lead2 a && is_cont b && unicode_isspace (cp2 a b).

Definition isspace3 (a b c : ascii) : bool :=
  lead3 a && is_cont b && is_cont c && unicode_isspace (cp3 a b c).

Fixpoint lstrip (s : string) : string :=
  match s with
  | EmptyString => EmptyString
  | String a r1 =>
      if isspace a then lstrip r1
      else
        match r1 with
        | EmptyString => s
        | String b r2 =>
            if isspace2 a b then lstrip r2
            else
              match r2 with
              | EmptyString => s
              | String c r3 => if isspace3 a b c then lstrip r3 else s
              end
        end
  end.

(** [s] is one whitespace character of two or three bytes. *)
Definition multibyte_space (s : string) : bool :=
  match s with
  | String a (String b EmptyString) => isspace2 a b
  | String a (String b (String c EmptyString)) => isspace3 a b c
  | _ => false
  end.

Fixpoint rstrip (s : string) : string :=
  match s with
  | EmptyString => EmptyString
  | String c r =>
      let kept :=
        match rstrip r with
        | EmptyString => if isspace c then EmptyString else String c EmptyString
        | r' => String c r'
        end in
      if multibyte_space kept then EmptyString else kept
  end.

(** [s.strip()] *)
Definition strip (s : string) : string := rstrip (lstrip s).

(** [str(n)] for an [int]. *)
Definition str (n : Z) : string := NilZero.string_of_int (Z.to_int n).

Definition isdigit (c : ascii) : bool :=
  let n := nat_of_ascii c in (48 <=? n)%nat && (n <=? 57)%nat.

(** The code points of the digit zero in each run of ten decimal digits
    (general category Nd, Unicode 14.0). *)
Definition decimal_zeros : list Z :=
  [ 48; 1632; 1776; 1984; 2406; 2534; 2662; 2790;
    2918; 3046; 3174; 3302; 3430; 3558; 3664; 3792;
    3872; 4160; 4240; 6112; 6160; 6470; 6608; 6784;
    6800; 6992; 7088; 7232; 7248; 42528; 43216; 43264;
    43472; 43504; 43600; 44016; 65296; 66720; 68912; 69734;
    69872; 69942; 70096; 70384; 70736; 70864; 71248; 71360;
    71472; 71904; 72016; 72784; 73040; 73120; 92768; 92864;
    93008; 120782; 120792; 120802; 120812; 120822; 123200; 123632;
    125264; 130032 ].

(** [Py_UNICODE_TODECIMAL] *)
Definition to_decimal (cp : Z) : option Z :=
  match List.find (λ z, Z.leb z cp && Z.ltb cp (z + 10)) decimal_zeros with
  | Some z => Some (cp - z)
  | None => None
  end.

Definition digit_char (d : Z) : ascii := ascii_of_nat (48 + Z.to_nat d).

Definition is_ascii (s : string) : bool :=
  forallb (λ c, Z.ltb (code c) 128) (list_ascii_of_string s).

(** What [int] makes of a character beyond ASCII: whitespace becomes a
    space, a decimal digit its ASCII digit, anything else a question mark
    that ends the text. *)
Definition to_ascii_char (cp : Z) (rest : string) : string :=
  if unicode_isspace cp then String " " rest
  else
    match to_decimal cp with
    | Some d => String (digit_char d) rest
    | None => "?"
    end.

(** [_PyUnicode_TransformDecimalAndSpaceToASCII] on a text that is not
    ASCII. *)
Fixpoint to_ascii (s : string) : string :=
  match s with
  | EmptyString => EmptyString
  | String a r1 =>
      if Z.ltb (code a) 127 then String a (to_ascii r1)
      else
        match r1 with
        | EmptyString => "?"
        | String b r2 =>
            if lead2 a then to_ascii_char (cp2 a b) (to_ascii r2)
            else
              match r2 with
              | EmptyString => "?"
              | String c r3 =>
                  if lead3 a then to_ascii_char (cp3 a b c) (to_ascii r3)
                  else
                    match r3 with
                    | EmptyString => "?"
                    | String d r4 =>
                        if lead4 a then to_ascii_char (cp4 a b c d) (to_ascii r4)
                        else "?"
                    end
              end
        end
  end.

(** [Py_ISSPACE]: the whitespace of the C locale, which [int] skips at both
    ends of the numeral. *)
Definition c_isspace (c : ascii) : bool :=
  let n := nat_of_ascii c in
  ((9 <=? n)%nat && (n <=? 13)%nat) || (n =? 32)%nat.

Fixpoint c_lstrip (s : string) : string :=
  match s with
  | EmptyString => EmptyString
  | String c r => if c_isspace c then c_lstrip r else s
  end.

Fixpoint c_rstrip (s : string) : string :=
  match s with
  | EmptyString => EmptyString
  | String c r =>
      match c_rstrip r with
      | EmptyString => if c_isspace c then EmptyString else String c EmptyString
      | r' => String c r'
      end
  end.

(** Underscores in an integer literal are allowed singly, between digits. *)
Fixpoint underscores_ok (prev_digit : bool) (s : string) : bool :=
  match s with
  | EmptyString => prev_digit
  | String c r =>
      if Ascii.eqb c "_" then prev_digit && underscores_ok false r
      else underscores_ok true r
  end.

Fixpoint remove_underscores (s : string) : string :=
  match s with
  | EmptyString => EmptyString
  | String c r =>
      if Ascii.eqb c "_" then remove_underscores r
      else String c (remove_underscores r)
  end.

Definition parse_digits (s : string) : option Z :=
  if underscores_ok false s then
    match NilEmpty.uint_of_string (remove_underscores s) with
    | Some d => Some (Z.of_uint d)
    | None => None
    end
  else None.

(** The message quotes the text as it is (the escapes that [repr] writes
    for unprintable characters are not modelled). *)
Definition invalid_literal (s : string) : exn :=
  ValueError ("invalid literal for int() with base 10: '" +:+ s +:+ "'").

(** [int(s)] for a [str]: characters beyond ASCII are brought back to
    ASCII, the whitespace of the C locale is skipped at both ends, and what
    remains is an optional sign and a non-empty run of decimal digits. *)
Definition int (s : string) : result Z :=
  let text := if is_ascii s then s else to_ascii s in
  let body := c_rstrip (c_lstrip text) in
  let parsed :=
    match body with
    | String c r =>
        if Ascii.eqb c "-" then option_map Z.opp (parse_digits r)
        else if Ascii.eqb c "+" then parse_digits r
        else parse_digits body
    | EmptyString => None
    end in
  match parsed with
  | Some n => Ok n
  | None => Raise (invalid_literal s)
  end.

End Py.

Import Py.

(** ** The PyJWT library, as [auth.py] uses it

  Token strings are modelled symbolically, with a perfect signature: a
  string is either not a JWS compact serialisation at all, or it
  serialises a header algorithm, a JSON claim set and a tag computed under
  some key.  [decode] follows the checks PyJWT 2.10 performs with its
  default options. *)

Module Jwt.

(** JSON values found in a claim set. *)
Inductive jval :=
| JNull
| JBool (b : bool)
| JInt (n : Z)
| JStr (s : string).

(** Python values [auth.py] hands to [jwt.encode]; a [datetime] is a
    number of microseconds since the epoch (UTC). *)
Inductive pyval :=
| PNone
| PBool (b : bool)
| PInt (n : Z)
| PStr (s : string)
| PDatetime (us : Z).

Inductive token :=
| Malformed (raw : string)
| JWS (alg : string) (key : string) (claims : gmap string jval).

(** [timedelta(minutes=m)] in microseconds. *)
Definition timedelta_minutes (m : Z) : Z := m * 60 * 1000000.

(** [timegm(dt.utctimetuple())]: whole seconds, microseconds dropped. *)
Definition timegm (us : Z) : Z := us / 1000000.

Definition time_claims : list string := ["exp"; "iat"; "nbf"].

(** [jwt.encode] replaces a [datetime] under [exp], [iat] or [nbf] by its
    [timegm]; any other [datetime] is not JSON serialisable. *)
Definition serializable (k : string) (v : pyval) : bool :=
  match v with
  | PDatetime _ => bool_decide (k ∈ time_claims)
  | _ => true
  end.

Definition to_json (k : string) (v : pyval) : option jval :=
  match v with
  | PNone => Some JNull
  | PBool b => Some (JBool b)
  | PInt n => Some (JInt n)
  | PStr s => Some (JStr s)
  | PDatetime us =>
      if bool_decide (k ∈ time_claims) then Some (JInt (timegm us)) else None
  end.

(** [jwt.encode(payload, key, algorithm=algorithm)] *)
Definition encode (payload : gmap string pyval) (key algorithm : string)
  : result token :=
  if bool_decide (map_Forall (λ k v, serializable k v = true) payload) then
    Ok (JWS algorithm key (map_imap to_json payload))
  else Raise (TypeError "Object of type datetime is not JSON serializable").

(** [int(v)] on a decoded JSON value. *)
Definition int_of_jval (v : jval) : result Z :=
  match v with
  | JInt n => Ok n
  | JBool b => Ok (if b then 1 else 0)
  | JStr s => Py.int s
  | JNull =>
      Raise (TypeError
        "int() argument must be a string, a bytes-like object or a real number, not 'NoneType'")
  end.

(** [int(payload[k])] guarded by [except ValueError: raise err]. *)
Definition int_claim (v : jval) (err : jwt_error) : result Z :=
  match int_of_jval v with
  | Raise (ValueError _) => Raise (JwtError err)
  | r => r
  end.

Definition truthy (v : jval) : bool :=
  match v with
  | JNull => false
  | JBool b => b
  | JInt n => negb (Z.eqb n 0)
  | JStr s => Py.truthy s
  end.

Definition is_str (v : jval) : bool :=
  match v with JStr _ => true | _ => false end.

Definition check (b : bool) (err : jwt_error) : result unit :=
  if b then Ok tt else Raise (JwtError err).

(** Claim validation at time [now] (microseconds since the epoch; PyJWT
    compares against the fractional [timestamp()]), without leeway,
    audience, issuer or subject arguments. *)
Definition validate_iat (claims : gmap string jval) (now : Z) : result unit :=
  match claims !! "iat" with
  | None => Ok tt
  | Some v =>
      iat ← int_claim v InvalidIssuedAtError;
      check (negb (Z.ltb now (iat * 1000000))) ImmatureSignatureError
  end.

Definition validate_nbf (claims : gmap string jval) (now : Z) : result unit :=
  match claims !! "nbf" with
  | None => Ok tt
  | Some v =>
      nbf ← int_claim v DecodeError;
      check (negb (Z.ltb now (nbf * 1000000))) ImmatureSignatureError
  end.

Definition validate_exp (claims : gmap string jval) (now : Z) : result unit :=
  match claims !! "exp" with
  | None => Ok tt
  | Some v =>
      exp ← int_claim v DecodeError;
      check (negb (Z.leb (exp * 1000000) now)) ExpiredSignatureError
  end.

Definition validate_aud (claims : gmap string jval) : result unit :=
  match claims !! "aud" with
  | None => Ok tt
  | Some v => check (negb (truthy v)) InvalidAudienceError
  end.

Definition validate_sub (claims : gmap string jval) : result unit :=
  match claims !! "sub" with
  | None => Ok tt
  | Some v => check (is_str v) InvalidSubjectError
  end.

Definition validate_jti (claims : gmap string jval) : result unit :=
  match claims !! "jti" with
  | None => Ok tt
  | Some v => check (is_str v) InvalidJTIError
  end.

Definition validate_claims (claims : gmap string jval) (now : Z) : result unit :=
  _ ← validate_iat claims now;
  _ ← validate_nbf claims now;
  _ ← validate_exp claims now;
  _ ← validate_aud claims;
  _ ← validate_sub claims;
  validate_jti claims.

(** [jwt.decode(token, key, algorithms=algorithms)] at time [now] *)
Definition decode (tok : token) (key : string) (algorithms : list string)
    (now : Z) : result (gmap string jval) :=
  match tok with
  | Malformed _ => Raise (JwtError DecodeError)
  | JWS alg k claims =>
      _ ← check (bool_decide (alg ∈ algorithms)) InvalidAlgorithmError;
      _ ← check (bool_decide (k = key)) InvalidSignatureError;
      _ ← validate_claims claims now;
      Ok claims
  end.

End Jwt.

(** [d[k]] on a [dict] decoded from JSON. *)
Definition getitem (d : gmap string Jwt.jval) (k : string) : result Jwt.jval :=
match d !! k with
| Some v => Ok v
| None => Raise (KeyError k)
end.

(** [os.getenv(name, default)] *)
Definition getenv (environ : gmap string string) (name : string) : option string :=
environ !! name.

Definition getenv_default (environ : gmap string string) (name default : string) : string :=
match environ !! name with
| Some v => v
| None => default
end.

(** [load_dotenv()]: the variables of the [.env] file are added to the
    environment; a variable that is already set keeps its value. *)
Definition load_dotenv (dotenv environ : gmap string string)
  : gmap string string :=
  environ ∪ dotenv.

(** ** auth.py *)

Section Auth.

(** The process environment, read once when the module is imported;
    [main.py] imports [auth] before it calls [load_dotenv()]. *)
Variable environ : gmap string string.

Definition SECRET_KEY : string :=
  getenv_default environ "SECRET_KEY" "your-secret-key-here-change-in-production".
Definition ALGORITHM : string := "HS256".
Definition ACCESS_TOKEN_EXPIRE_MINUTES : Z := 30.

(** [AuthHandler.encode_token]; [utcnow_exp] and [utcnow_iat] are the two
    successive readings of [datetime.utcnow()]. *)
Definition encode_token (utcnow_exp utcnow_iat : Z) (user_id : Z)
  : result Jwt.token :=
  let payload : gmap string Jwt.pyval :=
    <["sub" := Jwt.PStr (Py.str user_id)]>
    (<["iat" := Jwt.PDatetime utcnow_iat]>
    (<["exp" := Jwt.PDatetime
                  (utcnow_exp + Jwt.timedelta_minutes ACCESS_TOKEN_EXPIRE_MINUTES)]>
     ∅)) in
  Jwt.encode payload SECRET_KEY ALGORITHM.

(** [AuthHandler.decode_token]; [now] is the time at which PyJWT
    validates. Only the PyJWT exceptions are caught. *)
Definition decode_token (token : Jwt.token) (now : Z) : result (option Z) :=
  let body :=
    payload ← Jwt.decode token SECRET_KEY [ALGORITHM] now;
    sub ← getitem payload "sub";
    user_id ← Jwt.int_of_jval sub;
    Ok (Some user_id) in
  match body with
  | Raise (JwtError ExpiredSignatureError) => Ok None
  | Raise (JwtError _) => Ok None
  | r => r
  end.

End Auth.

(** ** ai_service.py *)

Module AI.

(** The keyword arguments of [client.chat.completions.create]. *)
Record ChatRequest := {
  model : string;
  messages : list (string * string);  (* role, content *)
  max_tokens : Z;
  temperature : Q
}.

(** What the call gives back: an exception, or a response whose
    [choices[i].message.content] are listed ([None] when absent). *)
Definition ChatResponse := list (option string).

(** The provider client: one outcome for each request made through it. *)
Definition OpenAIClient := ChatRequest → result ChatResponse.

Record AIService := {
  openai_api_key : option string;
  client : option OpenAIClient
}.

(** [AIService.__init__]; [OpenAI] is the client constructor, which may
    raise. *)
Definition init (environ : gmap string string)
    (OpenAI : string → result OpenAIClient) : AIService :=
  let key := getenv environ "OPENAI_API_KEY" in
  let client :=
    match key with
    | Some k =>
        if Py.truthy k then
          match OpenAI k with
          | Ok c => Some c
          | Raise _ => None
          end
        else None
    | None => None
    end in
  {| openai_api_key := key; client := client |}.

Definition dquote : string := String (ascii_of_nat 34) EmptyString.

(** The f-string bound to [prompt] in [_generate_with_openai]. *)
Definition build_prompt (topic : string) : string :=
  "
        Create a comprehensive, detailed research report on the topic: " +:+
  dquote +:+
  topic +:+
  dquote +:+
  "
        
        The report should include:
        1. Executive Summary
        2. Introduction and Background
        3. Current State Analysis
        4. Key Findings and Insights
        5. Challenges and Opportunities
        6. Future Trends and Predictions
        7. Recommendations
        8. Conclusion
        
        Make the report professional, well-structured, and informative.
        Use clear headings for each section (end each heading with a colon).
        Provide detailed explanations and analysis.
        The report should be suitable for business or academic purposes.
        ".


(** [AIService._generate_demo_content]: one f-string. *)
Definition _generate_demo_content (self : AIService) (topic : string) : string :=
  "Executive Summary:
This comprehensive report examines " +:+
  topic +:+
  " from multiple perspectives, providing insights into current trends, challenges, and future opportunities. Our analysis reveals significant developments in this field that warrant attention from stakeholders and decision-makers.

Introduction and Background:
" +:+
  topic +:+
  " has emerged as a critical area of focus in today's rapidly evolving landscape. Understanding its implications requires a thorough examination of historical context, current applications, and future potential. This report aims to provide a detailed analysis that can inform strategic decision-making.

Current State Analysis:
The current state of " +:+
  topic +:+
  " is characterized by rapid growth and innovation. Key players in the market are investing heavily in research and development, leading to breakthrough technologies and methodologies. Market adoption rates have shown consistent upward trends, indicating strong demand and acceptance.

Key market indicators include:
• Increased investment from venture capital and institutional investors
• Growing number of specialized companies and startups
• Expansion of use cases across various industries
• Enhanced regulatory frameworks and standards

Key Findings and Insights:
Our research has identified several critical findings regarding " +:+
  topic +:+
  ":

1. Market Growth: The sector has experienced unprecedented growth rates, with projections indicating continued expansion over the next five years.

2. Technology Advancement: Significant technological breakthroughs have improved efficiency, accuracy, and accessibility.

3. Industry Adoption: Major corporations across various sectors are implementing solutions related to " +:+
  topic +:+
  ", driving mainstream acceptance.

4. Consumer Behavior: End-user preferences and behaviors are evolving, creating new opportunities for innovation and service delivery.

Challenges and Opportunities:
While " +:+
  topic +:+
  " presents numerous opportunities, several challenges must be addressed:

Challenges:
• Regulatory uncertainty in some jurisdictions
• Skills gap in the workforce
• Infrastructure limitations
• Privacy and security concerns
• Cost barriers for smaller organizations

Opportunities:
• Emerging markets showing high growth potential
• Cross-industry collaboration possibilities
• Innovation in supporting technologies
• Government initiatives and funding programs
• Increasing consumer awareness and demand

Future Trends and Predictions:
Based on current trajectories and expert analysis, we anticipate several key trends in " +:+
  topic +:+
  ":

1. Increased Automation: Greater integration of automated systems and processes
2. Enhanced User Experience: Focus on intuitive interfaces and user-centric design
3. Sustainability Integration: Growing emphasis on environmental and social responsibility
4. Global Standardization: Development of universal standards and protocols
5. Democratization: Increased accessibility for smaller organizations and individuals

Recommendations:
Based on our analysis, we recommend the following strategic actions:

1. Investment Strategy: Organizations should consider strategic investments in " +:+
  topic +:+
  " to maintain competitive advantage.

2. Skill Development: Invest in training and development programs to build internal capabilities.

3. Partnership Opportunities: Explore collaborative partnerships with technology providers and industry leaders.

4. Risk Management: Develop comprehensive risk assessment and mitigation strategies.

5. Regulatory Compliance: Stay informed about evolving regulations and ensure compliance frameworks are in place.

Conclusion:
" +:+
  topic +:+
  " represents a significant opportunity for organizations willing to embrace innovation and adapt to changing market conditions. While challenges exist, the potential benefits far outweigh the risks for those who approach implementation strategically.

Success in this domain requires a balanced approach that considers technological capabilities, market dynamics, regulatory requirements, and organizational readiness. Organizations that act decisively while maintaining flexibility will be best positioned to capitalize on the opportunities presented by " +:+
  topic +:+
  ".

The landscape will continue to evolve rapidly, making it essential for stakeholders to remain informed and agile in their approach. Regular reassessment of strategies and objectives will be crucial for long-term success in this dynamic environment.".


Definition system_message : string :=
  "You are a professional research analyst creating detailed reports.".

Definition chat_request (topic : string) : ChatRequest :=
  {| model := "gpt-3.5-turbo";
     messages := [("system", system_message); ("user", build_prompt topic)];
     max_tokens := 2000;
     temperature := 7 # 10 |}.

(** [response.choices[0]] *)
Definition first_choice (choices : ChatResponse) : result (option string) :=
  match choices with
  | c :: _ => Ok c
  | [] => Raise (IndexError "list index out of range")
  end.

(** [content.strip() if content else self._generate_demo_content(topic)] *)
Definition content_or_demo (self : AIService) (topic : string)
    (content : option string) : string :=
  if Py.truthy_opt content then
    match content with
    | Some c => Py.strip c
    | None => _generate_demo_content self topic
    end
  else _generate_demo_content self topic.

(** [AIService._generate_with_openai] (messages printed to the console are
    not modelled). *)
Definition _generate_with_openai (self : AIService) (topic : string)
  : result string :=
  match client self with
  | None => Ok (_generate_demo_content self topic)
  | Some create =>
      Py.try_except
        (response ← create (chat_request topic);
         content ← first_choice response;
         Ok (content_or_demo self topic content))
        (λ e, Ok (_generate_demo_content self topic))
  end.

(** [AIService.generate_report_content] *)
Definition generate_report_content (self : AIService) (topic : string)
  : result string :=
  if Py.truthy_opt (openai_api_key self) then
    Py.try_except
      (_generate_with_openai self topic)
      (λ e, Ok (_generate_demo_content self topic))
  else Ok (_generate_demo_content self topic).

(** *** The demo template read as eight sections *)

Definition newline : string := String (ascii_of_nat 10) EmptyString.

Definition executive_summary_body (topic : string) : string :=
  "This comprehensive report examines " +:+
  topic +:+
  " from multiple perspectives, providing insights into current trends, challenges, and future opportunities. Our analysis reveals significant developments in this field that warrant attention from stakeholders and decision-makers.".

Definition introduction_and_background_body (topic : string) : string :=
  topic +:+
  " has emerged as a critical area of focus in today's rapidly evolving landscape. Understanding its implications requires a thorough examination of historical context, current applications, and future potential. This report aims to provide a detailed analysis that can inform strategic decision-making.".

Definition current_state_analysis_body (topic : string) : string :=
  "The current state of " +:+
  topic +:+
  " is characterized by rapid growth and innovation. Key players in the market are investing heavily in research and development, leading to breakthrough technologies and methodologies. Market adoption rates have shown consistent upward trends, indicating strong demand and acceptance.

Key market indicators include:
• Increased investment from venture capital and institutional investors
• Growing number of specialized companies and startups
• Expansion of use cases across various industries
• Enhanced regulatory frameworks and standards".

Definition key_findings_and_insights_body (topic : string) : string :=
  "Our research has identified several critical findings regarding " +:+
  topic +:+
  ":

1. Market Growth: The sector has experienced unprecedented growth rates, with projections indicating continued expansion over the next five years.

2. Technology Advancement: Significant technological breakthroughs have improved efficiency, accuracy, and accessibility.

3. Industry Adoption: Major corporations across various sectors are implementing solutions related to " +:+
  topic +:+
  ", driving mainstream acceptance.

4. Consumer Behavior: End-user preferences and behaviors are evolving, creating new opportunities for innovation and service delivery.".

Definition challenges_and_opportunities_body (topic : string) : string :=
  "While " +:+
  topic +:+
  " presents numerous opportunities, several challenges must be addressed:

Challenges:
• Regulatory uncertainty in some jurisdictions
• Skills gap in the workforce
• Infrastructure limitations
• Privacy and security concerns
• Cost barriers for smaller organizations

Opportunities:
• Emerging markets showing high growth potential
• Cross-industry collaboration possibilities
• Innovation in supporting technologies
• Government initiatives and funding programs
• Increasing consumer awareness and demand".

Definition future_trends_and_predictions_body (topic : string) : string :=
  "Based on current trajectories and expert analysis, we anticipate several key trends in " +:+
  topic +:+
  ":

1. Increased Automation: Greater integration of automated systems and processes
2. Enhanced User Experience: Focus on intuitive interfaces and user-centric design
3. Sustainability Integration: Growing emphasis on environmental and social responsibility
4. Global Standardization: Development of universal standards and protocols
5. Democratization: Increased accessibility for smaller organizations and individuals".

Definition recommendations_body (topic : string) : string :=
  "Based on our analysis, we recommend the following strategic actions:

1. Investment Strategy: Organizations should consider strategic investments in " +:+
  topic +:+
  " to maintain competitive advantage.

2. Skill Development: Invest in training and development programs to build internal capabilities.

3. Partnership Opportunities: Explore collaborative partnerships with technology providers and industry leaders.

4. Risk Management: Develop comprehensive risk assessment and mitigation strategies.

5. Regulatory Compliance: Stay informed about evolving regulations and ensure compliance frameworks are in place.".

Definition conclusion_body (topic : string) : string :=
  topic +:+
  " represents a significant opportunity for organizations willing to embrace innovation and adapt to changing market conditions. While challenges exist, the potential benefits far outweigh the risks for those who approach implementation strategically.

Success in this domain requires a balanced approach that considers technological capabilities, market dynamics, regulatory requirements, and organizational readiness. Organizations that act decisively while maintaining flexibility will be best positioned to capitalize on the opportunities presented by " +:+
  topic +:+
  ".

The landscape will continue to evolve rapidly, making it essential for stakeholders to remain informed and agile in their approach. Regular reassessment of strategies and objectives will be crucial for long-term success in this dynamic environment.".

Definition demo_sections (topic : string) : list (string * string) :=
  [ ("Executive Summary", executive_summary_body topic);
    ("Introduction and Background", introduction_and_background_body topic);
    ("Current State Analysis", current_state_analysis_body topic);
    ("Key Findings and Insights", key_findings_and_insights_body topic);
    ("Challenges and Opportunities", challenges_and_opportunities_body topic);
    ("Future Trends and Predictions", future_trends_and_predictions_body topic);
    ("Recommendations", recommendations_body topic);
    ("Conclusion", conclusion_body topic) ].

(** A section is its heading, a colon, a line break and its body;
    sections are separated by one empty line. *)
Definition render_section (sec : string * string) : string :=
  fst sec +:+ ":" +:+ newline +:+ snd sec.

Fixpoint render_sections (secs : list (string * string)) : string :=
  match secs with
  | [] => EmptyString
  | [sec] => render_section sec
  | sec :: rest => render_section sec +:+ newline +:+ newline +:+ render_sections rest
  end.

(** [needle in hay] *)
Definition contains (needle hay : string) : Prop :=
  ∃ pre post, hay = pre +:+ needle +:+ post.

Definition section_names : list string :=
  [ "Executive Summary"; "Introduction and Background";
    "Current State Analysis"; "Key Findings and Insights";
    "Challenges and Opportunities"; "Future Trends and Predictions";
    "Recommendations"; "Conclusion" ].

End AI.

(** ** models.py *)

(** Row of the [users] table: [id] is the primary key, [email] and
    [username] are declared [unique=True]. *)
Module User.
Record t := {
  id : Z;
  email : string;
  username : string;
  hashed_password : string;
  created_at : Z
}.
End User.

(** Row of the [reports] table. *)
Module Report.
Record t := {
  id : Z;
  user_id : Z;
  topic : string;
  filename : string;
  file_path : string;
  created_at : Z
}.
End Report.

Record UserCreate := {
  uc_email : string;
  uc_username : string;
  uc_password : string
}.

Record UserLogin := {
  ul_email : string;
  ul_password : string
}.

Record ReportRequest := {
  rr_topic : string
}.

(** ** The relational store and the [reports/] directory

    The session that [get_db] yields ([database.py] is not among the
    sources) is modelled by the tables themselves, with the primary key and
    the [unique=True] columns that [models.py] declares enforced on
    insert. *)

Record DB := {
  users : list User.t;
  reports : list Report.t
}.

(** The file system as the backend sees it: [files] maps a path to the
    bytes of the regular file there, [dirs] holds the paths, as they are
    spelled, that lead to a directory. *)
Record State := {
  db : DB;
  files : gmap string string;
  dirs : gset string
}.

Definition set_db (st : State) (d : DB) : State :=
  {| db := d; files := files st; dirs := dirs st |}.

Definition set_files (st : State) (f : gmap string string) : State :=
  {| db := db st; files := f; dirs := dirs st |}.

(** [db.query(User).filter(User.email == email).first()] *)
Definition user_by_email (d : DB) (email : string) : option User.t :=
  List.find (λ u, String.eqb (User.email u) email) (users d).

(** [db.query(User).filter(User.id == user_id).first()] *)
Definition user_by_id (d : DB) (user_id : Z) : option User.t :=
  List.find (λ u, Z.eqb (User.id u) user_id) (users d).

Definition user_by_username (d : DB) (username : string) : option User.t :=
  List.find (λ u, String.eqb (User.username u) username) (users d).

(** The key the store gives to a new row: one more than the largest. *)
Definition next_user_id (d : DB) : Z :=
  1 + fold_right Z.max 0 (map User.id (users d)).

(** [db.add(db_user); db.commit(); db.refresh(db_user)]: the insert is
    refused when it would break a [unique=True] column, and the table is
    then left as it was. *)
Definition add_user (d : DB) (email username hashed_password : string)
    (created_at : Z) : result (User.t * DB) :=
  match user_by_email d email, user_by_username d username with
  | Some _, _ => Raise (IntegrityError "UNIQUE constraint failed: users.email")
  | None, Some _ => Raise (IntegrityError "UNIQUE constraint failed: users.username")
  | None, None =>
      let u := {| User.id := next_user_id d;
                  User.email := email;
                  User.username := username;
                  User.hashed_password := hashed_password;
                  User.created_at := created_at |} in
      Ok (u, {| users := users d ++ [u]; reports := reports d |})
  end.

(** [os.path.exists(path)]: true of a regular file and of a directory. *)
Definition path_exists (st : State) (path : string) : bool :=
  bool_decide (is_Some (files st !! path)) || bool_decide (path ∈ dirs st).

(** ** Local time and [strftime] *)

Record datetime := {
  year : Z;
  month : Z;
  day : Z;
  hour : Z;
  minute : Z;
  second : Z
}.

Definition is_leap (y : Z) : bool :=
  (Z.eqb (y mod 4) 0 && negb (Z.eqb (y mod 100) 0)) || Z.eqb (y mod 400) 0.

Definition days_in_month (y m : Z) : Z :=
  if Z.eqb m 2 then (if is_leap y then 29 else 28)
  else if Z.eqb m 4 || Z.eqb m 6 || Z.eqb m 9 || Z.eqb m 11 then 30
  else 31.

(** The values a [datetime] object can hold ([MINYEAR] to [MAXYEAR]). *)
Definition datetime_valid (dt : datetime) : Prop :=
  1 <= year dt <= 9999 ∧ 1 <= month dt <= 12 ∧
  1 <= day dt <= days_in_month (year dt) (month dt) ∧
  0 <= hour dt <= 23 ∧ 0 <= minute dt <= 59 ∧ 0 <= second dt <= 59.

(** [s.zfill(width)] for an unsigned numeral. *)
Definition zfill (width : nat) (s : string) : string :=
  String.concat "" (replicate (width - String.length s) "0") +:+ s.

(** A zero-padded decimal field, as [%Y] (width 4) and [%m], [%d], [%H],
    [%M], [%S] (width 2) print it. *)
Definition field (width : nat) (n : Z) : string := zfill width (Py.str n).

(** [dt.strftime("%Y%m%d_%H%M%S")] *)
Definition strftime_stamp (dt : datetime) : string :=
  field 4 (year dt) +:+ field 2 (month dt) +:+ field 2 (day dt) +:+ "_" +:+
  field 2 (hour dt) +:+ field 2 (minute dt) +:+ field 2 (second dt).

(** [s] is made of exactly [width] decimal digits. *)
Definition digits_of_width (width : nat) (s : string) : bool :=
  Nat.eqb (String.length s) width && forallb Py.isdigit (list_ascii_of_string s).

(** ** main.py *)

(** What the outside world contributes to the handling of one request:
    clock readings, the salt drawn by the password hasher, the provider
    behind the content service and the fate of the file write. *)
Record Env := {
  decode_now : Z;          (* PyJWT's reading when the bearer token is checked *)
  utcnow_exp : Z;          (* first [datetime.utcnow()] of [encode_token] *)
  utcnow_iat : Z;          (* second [datetime.utcnow()] of [encode_token] *)
  utcnow_created : Z;      (* default of the [created_at] column *)
  now : datetime;          (* [datetime.now()], local time *)
  salt : string;
  ai_service : AI.AIService;
  io_error : option string (* [Some msg] when writing the file fails *)
}.

Record PublicUser := {
  pu_id : Z;
  pu_email : string;
  pu_username : string
}.

Record AuthResponse := {
  access_token : Jwt.token;
  token_type : string;
  user : PublicUser
}.

Record ReportHandle := {
  message : string;
  rh_filename : string;
  download_url : string
}.

Record FileResponse := {
  path : string;
  fr_filename : string;
  media_type : string
}.

(** The body a [FileResponse] streams back. *)
Definition response_body (st : State) (r : FileResponse) : option string :=
  files st !! path r.

Definition public (u : User.t) : PublicUser :=
  {| pu_id := User.id u; pu_email := User.email u; pu_username := User.username u |}.

Definition HTTP_400_BAD_REQUEST : Z := 400.
Definition HTTP_401_UNAUTHORIZED : Z := 401.
Definition HTTP_404_NOT_FOUND : Z := 404.
Definition HTTP_500_INTERNAL_SERVER_ERROR : Z := 500.

(** The status a client sees: the one of an [HTTPException], and 500 for
    any other exception that leaves a handler. *)
Definition http_status {A} (r : result A) : Z :=
  match r with
  | Ok _ => 200
  | Raise (HTTPException c _) => c
  | Raise _ => 500
  end.

Section Main.

(** The process environment. *)
Variable environ : gmap string string.

(** passlib's bcrypt context: [hash] with the salt it draws, and [verify]. *)
Variable bcrypt_hash : string → string → string.
Variable bcrypt_verify : string → string → bool.

(** The bytes the document renderer lays out for a topic, a body text, an
    author and a generation time. *)
Variable pdf_document : string → string → string → datetime → string.

(** Modelled from the spec: [PDFGenerator.create_report] ([pdf_generator.py]
    is not among the sources).  The renderer writes one artifact to the
    content store at [file_path]; an I/O failure while writing raises and
    leaves no artifact. *)
Definition create_report (topic content author file_path : string)
    (env : Env) (st : State) : result unit * State :=
  match io_error env with
  | Some msg => (Raise (OSError msg), st)
  | None =>
      (Ok tt,
       set_files st (<[file_path := pdf_document topic content author (now env)]> (files st)))
  end.

(** [get_current_user], the dependency of the authenticated routes. *)
Definition get_current_user (credentials : Jwt.token) (env : Env) : result Z :=
  user_id ← decode_token environ credentials (decode_now env);
  match user_id with
  | None => Raise (HTTPException HTTP_401_UNAUTHORIZED "Invalid token")
  | Some u => Ok u
  end.

Definition auth_response (env : Env) (u : User.t) : result AuthResponse :=
  token ← encode_token environ (utcnow_exp env) (utcnow_iat env) (User.id u);
  Ok {| access_token := token; token_type := "bearer"; user := public u |}.

(** [POST /auth/signup] *)
Definition signup (user : UserCreate) (env : Env) (st : State)
  : result AuthResponse * State :=
  match user_by_email (db st) (uc_email user) with
  | Some _ =>
      (Raise (HTTPException HTTP_400_BAD_REQUEST "Email already registered"), st)
  | None =>
      let hashed_password := bcrypt_hash (salt env) (uc_password user) in
      match add_user (db st) (uc_email user) (uc_username user) hashed_password
                     (utcnow_created env) with
      | Raise e => (Raise e, st)
      | Ok (db_user, d) => (auth_response env db_user, set_db st d)
      end
  end.

(** [POST /auth/login] *)
Definition login (user : UserLogin) (env : Env) (st : State)
  : result AuthResponse * State :=
  match user_by_email (db st) (ul_email user) with
  | Some db_user =>
      if bcrypt_verify (ul_password user) (User.hashed_password db_user)
      then (auth_response env db_user, st)
      else (Raise (HTTPException HTTP_401_UNAUTHORIZED "Invalid credentials"), st)
  | None => (Raise (HTTPException HTTP_401_UNAUTHORIZED "Invalid credentials"), st)
  end.

(** [GET /auth/me], after [get_current_user] *)
Definition get_current_user_info (user_id : Z) (st : State)
  : result PublicUser * State :=
  match user_by_id (db st) user_id with
  | Some u => (Ok (public u), st)
  | None => (Raise (HTTPException HTTP_404_NOT_FOUND "User not found"), st)
  end.

(** [user.username] on the result of [.first()] *)
Definition username_of (user : option User.t) : result string :=
  match user with
  | Some u => Ok (User.username u)
  | None => Raise (AttributeError "'NoneType' object has no attribute 'username'")
  end.

(** The body of the [try] block of [generate_report]. *)
Definition generate_report_body (request : ReportRequest) (user_id : Z)
    (env : Env) (st : State) : result ReportHandle * State :=
  let user := user_by_id (db st) user_id in
  match AI.generate_report_content (ai_service env) (rr_topic request) with
  | Raise e => (Raise e, st)
  | Ok ai_content =>
      let timestamp := strftime_stamp (now env) in
      match username_of user with
      | Raise e => (Raise e, st)
      | Ok name =>
          let filename := "report_" +:+ name +:+ "_" +:+ timestamp +:+ ".pdf" in
          let file_path := "reports/" +:+ filename in
          match create_report (rr_topic request) ai_content name file_path env st with
          | (Raise e, st') => (Raise e, st')
          | (Ok _, st') =>
              (Ok {| message := "Report generated successfully";
                     rh_filename := filename;
                     download_url := "/download/" +:+ filename |}, st')
          end
      end
  end.

(** [POST /generate-report], after [get_current_user]: every exception of
    the body is turned into one 500 response. *)
Definition generate_report (request : ReportRequest) (user_id : Z)
    (env : Env) (st : State) : result ReportHandle * State :=
  match generate_report_body request user_id env st with
  | (Raise e, st') =>
      (Raise (HTTPException HTTP_500_INTERNAL_SERVER_ERROR
                ("Error generating report: " +:+ Py.str_exn e)), st')
  | ok => ok
  end.

(** [GET /download/{filename}], after [get_current_user] *)
Definition download_report (filename : string) (user_id : Z) (st : State)
  : result FileResponse * State :=
  let file_path := "reports/" +:+ filename in
  if negb (path_exists st file_path) then
    (Raise (HTTPException HTTP_404_NOT_FOUND "File not found"), st)
  else
    (Ok {| path := file_path; fr_filename := filename;
           media_type := "application/pdf" |}, st).

(** [GET /] and [GET /health] *)
Definition root (st : State) : result string * State :=
  (Ok "GenAI Report Generator API is running!", st).

Definition health_check (st : State) : result (string * string) * State :=
  (Ok ("healthy", "API is running"), st).

(** A route with [Depends(get_current_user)]: the dependency runs first,
    outside the handler. *)
Definition authenticated {A} (credentials : Jwt.token) (env : Env) (st : State)
    (handler : Z → result A * State) : result A * State :=
  match get_current_user credentials env with
  | Raise e => (Raise e, st)
  | Ok user_id => handler user_id
  end.

(** The boundary operations. *)
Inductive request :=
| Signup (user : UserCreate)
| Login (user : UserLogin)
| Me (credentials : Jwt.token)
| GenerateReport (credentials : Jwt.token) (body : ReportRequest)
| Download (credentials : Jwt.token) (filename : string)
| Root
| Health.

Inductive response :=
| RAuth (r : AuthResponse)
| RUser (u : PublicUser)
| RHandle (h : ReportHandle)
| RFile (f : FileResponse)
| RJson (j : list string).

Definition respond {A} (f : A → response) (r : result A * State)
  : result response * State :=
  match r with
  | (Ok a, st) => (Ok (f a), st)
  | (Raise e, st) => (Raise e, st)
  end.

Definition handle (req : request) (env : Env) (st : State)
  : result response * State :=
  match req with
  | Signup u => respond RAuth (signup u env st)
  | Login u => respond RAuth (login u env st)
  | Me c =>
      respond RUser (authenticated c env st (λ uid, get_current_user_info uid st))
  | GenerateReport c body =>
      respond RHandle (authenticated c env st (λ uid, generate_report body uid env st))
  | Download c filename =>
      respond RFile (authenticated c env st (λ uid, download_report filename uid st))
  | Root => respond (λ m, RJson [m]) (root st)
  | Health => respond (λ m, RJson [fst m; snd m]) (health_check st)
  end.

(** One request served. *)
Definition step (st st' : State) : Prop :=
  ∃ req env, snd (handle req env st) = st'.

(** The state after start-up on a fresh deployment: [create_tables()] has
    created both tables, [os.makedirs] the empty [reports] directory, whose
    entries [.] and [..] lead to itself and to the working directory. *)
Definition initial_state : State :=
  {| db := {| users := []; reports := [] |};
     files := ∅;
     dirs := {[ "reports"; "reports/."; "reports/.." ]} |}.

Definition reachable (st : State) : Prop := rtc step initial_state st.

End Main.

Definition all_digits (s : string) : bool :=
  forallb Py.isdigit (list_ascii_of_string s).

(** ** Tokens issued by the service, and why a token is refused *)

(** The claim set [encode_token] signs, for the two clock readings. *)
Definition issued_claims (utcnow_exp utcnow_iat user_id : Z) : gmap string Jwt.jval :=
  <["sub" := Jwt.JStr (Py.str user_id)]>
  (<["iat" := Jwt.JInt (Jwt.timegm utcnow_iat)]>
  (<["exp" := Jwt.JInt (Jwt.timegm utcnow_exp + 30 * 60)]> ∅)).

(** The failure causes of token validation at time [now]: the token is
    malformed, it was signed with another secret, or it was issued by the
    service and its expiry has passed. *)
Inductive invalid_cause (environ : gmap string string) (now : Z)
  : Jwt.token → Prop :=
| Cause_malformed raw :
    invalid_cause environ now (Jwt.Malformed raw)
| Cause_other_secret alg key claims :
    key ≠ SECRET_KEY environ →
    invalid_cause environ now (Jwt.JWS alg key claims)
| Cause_expired utcnow_exp utcnow_iat user_id tok :
    encode_token environ utcnow_exp utcnow_iat user_id = Ok tok →
    (Jwt.timegm utcnow_exp + 30 * 60) * 1000000 <= now →
    invalid_cause environ now tok.

(** ** Well-formed stores and the credentials of a request *)

(** No two rows of the [users] table share their key, their email or their
    username. *)
Definition users_unique (d : DB) : Prop :=
  NoDup (User.id <$> users d) ∧
  NoDup (User.email <$> users d) ∧
  NoDup (User.username <$> users d).

(** The bearer token of the routes that depend on [get_current_user]. *)
Definition credentials_of (req : request) : option Jwt.token :=
  match req with
  | Me c | GenerateReport c _ | Download c _ => Some c
  | Signup _ | Login _ | Root | Health => None
  end.

(** ** config.py

    The module calls [load_dotenv()] and then reads its settings: the
    [environ] of the definitions below is the environment that call
    leaves, [load_dotenv dotenv e] for a process environment [e]. *)

Module Config.

Definition SECRET_KEY (environ : gmap string string) : string :=
  getenv_default environ "SECRET_KEY"
    "your-secret-key-here-change-in-production-make-it-very-long-and-random".
Definition ALGORITHM : string := "HS256".
Definition ACCESS_TOKEN_EXPIRE_MINUTES : Z := 30.

Definition OPENAI_API_KEY (environ : gmap string string) : option string :=
  getenv environ "OPENAI_API_KEY".

Definition DATABASE_URL (environ : gmap string string) : string :=
  getenv_default environ "DATABASE_URL" "sqlite:///./genai_reports.db".

Definition API_HOST (environ : gmap string string) : string :=
  getenv_default environ "API_HOST" "0.0.0.0".


Definition CORS_ORIGINS : list string :=
  ["http://localhost:3000"; "http://127.0.0.1:3000"].

End Config.

(** ** Sample inputs *)

Module Sample.

Definition hash (salt password : string) : string := salt +:+ "$" +:+ password.

Definition verify (password hashed : string) : bool :=
  String.eqb hashed (hash "salt" password).

Definition pdf (topic content author : string) (dt : datetime) : string :=
  "%PDF-1.4 " +:+ topic +:+ " by " +:+ author +:+ " " +:+ strftime_stamp dt
    +:+ " " +:+ content.

Definition service : AI.AIService :=
  {| AI.openai_api_key := None; AI.client := None |}.

(** A request served on 17 May 2024 at 10:30:45 local time, one minute
    after the epoch second 1715931000 on the UTC clock. *)
Definition env : Env :=
  {| decode_now := 1715931060000000;
     utcnow_exp := 1715931060000000;
     utcnow_iat := 1715931060000000;
     utcnow_created := 1715931060000000;
     now := {| year := 2024; month := 5; day := 17;
               hour := 10; minute := 30; second := 45 |};
     salt := "salt";
     ai_service := service;
     io_error := None |}.

Definition alice : User.t :=
  {| User.id := 1;
     User.email := "alice@example.com";
     User.username := "alice";
     User.hashed_password := hash "salt" "wonderland";
     User.created_at := 1715931000000000 |}.

Definition store : State :=
  {| db := {| users := [alice]; reports := [] |};
     files := {[ "reports/report_alice_20240517_103045.pdf" := "%PDF-1.4" ]};
     dirs := {[ "reports"; "reports/."; "reports/.." ]} |}.

(** Tokens the service issued at the epoch second 1715931000. *)
Definition token_for (user_id : Z) : Jwt.token :=
  Jwt.JWS "HS256" "your-secret-key-here-change-in-production"
    (issued_claims 1715931000000000 1715931000000000 user_id).

End Sample.

(** ** A sample session *)

Module Scenario.

Definition alice_signup : UserCreate :=
  {| uc_email := "alice@example.com"; uc_username := "alice";
     uc_password := "wonderland" |}.

Definition alice_login : UserLogin :=
  {| ul_email := "alice@example.com"; ul_password := "wonderland" |}.

Definition wrong_password : UserLogin :=
  {| ul_email := "alice@example.com"; ul_password := "looking-glass" |}.

Definition quantum : ReportRequest := {| rr_topic := "Quantum Computing" |}.

Definition fusion : ReportRequest := {| rr_topic := "Fusion Power" |}.

(** The request of [Sample.env], on a disk that is full. *)
Definition disk_full : Env :=
  {| decode_now := decode_now Sample.env;
     utcnow_exp := utcnow_exp Sample.env;
     utcnow_iat := utcnow_iat Sample.env;
     utcnow_created := utcnow_created Sample.env;
     now := now Sample.env;
     salt := salt Sample.env;
     ai_service := ai_service Sample.env;
     io_error := Some "[Errno 28] No space left on device" |}.

(** U+00A0, U+3000 and U+001F in UTF-8. *)
Definition no_break_space : string :=
  String (ascii_of_nat 194) (String (ascii_of_nat 160) EmptyString).

Definition ideographic_space : string :=
  String (ascii_of_nat 227) (String (ascii_of_nat 128)
    (String (ascii_of_nat 128) EmptyString)).

Definition unit_separator : string := String (ascii_of_nat 31) EmptyString.

(** The backend with the sample collaborators. *)
Definition serve : request → Env → State → result response * State :=
  handle ∅ Sample.hash Sample.verify Sample.pdf.

Definition served : State → State → Prop :=
  step ∅ Sample.hash Sample.verify Sample.pdf.

End Scenario.

(** * Properties *)

(** ** Strings and decimal numerals *)

Lemma append_assoc (a b c : string) : (a +:+ b) +:+ c = a +:+ (b +:+ c).
Proof.
  induction a as [|x a IH]; [reflexivity|].
  change (String x ((a +:+ b) +:+ c) = String x (a +:+ b +:+ c)).
  by f_equal.
Qed.

Lemma append_cons (x : ascii) (a b : string) :
  String x a +:+ b = String x (a +:+ b).
Proof. reflexivity. Qed.

Lemma length_append (a b : string) :
  String.length (a +:+ b) = (String.length a + String.length b)%nat.
Proof.
  induction a as [|x a IH]; [reflexivity|].
  rewrite append_cons. simpl. by rewrite IH.
Qed.

Lemma list_ascii_append (a b : string) :
  list_ascii_of_string (a +:+ b)
  = (list_ascii_of_string a ++ list_ascii_of_string b)%list.
Proof.
  induction a as [|x a IH]; [reflexivity|].
  rewrite append_cons. simpl. by rewrite IH.
Qed.

Lemma isdigit_facts (c : ascii) :
  Py.isdigit c = true →
  Py.isspace c = false ∧ Ascii.eqb c "-" = false ∧
  Ascii.eqb c "+" = false ∧ Ascii.eqb c "_" = false.
Proof.
  destruct c as [[] [] [] [] [] [] [] []]; vm_compute; intros H;
    first [discriminate H | repeat split].
Qed.

Lemma isdigit_ascii (c : ascii) :
  Py.isdigit c = true →
  Py.c_isspace c = false ∧ Z.ltb (Py.code c) 128 = true.
Proof.
  destruct c as [[] [] [] [] [] [] [] []]; vm_compute; intros H;
    first [discriminate H | repeat split].
Qed.

Lemma string_of_uint_digits (d : Decimal.uint) :
  all_digits (NilEmpty.string_of_uint d) = true.
Proof. induction d; simpl; auto. Qed.

Lemma is_ascii_digits (s : string) : all_digits s = true → Py.is_ascii s = true.
Proof.
  unfold all_digits, Py.is_ascii.
  induction (list_ascii_of_string s) as [|c l IH]; [reflexivity|].
  simpl. intros [Hc Hl]%andb_prop.
  destruct (isdigit_ascii c Hc) as [_ ->]. by apply IH.
Qed.

Lemma c_rstrip_digits (s : string) : all_digits s = true → Py.c_rstrip s = s.
Proof.
  induction s as [|c r IH]; [reflexivity|].
  unfold all_digits. simpl. intros [Hc Hr]%andb_prop.
  rewrite (IH Hr). destruct (isdigit_ascii c Hc) as [-> _].
  by destruct r.
Qed.

Lemma c_strip_digits (s : string) :
  all_digits s = true → Py.c_rstrip (Py.c_lstrip s) = s.
Proof.
  intros H. destruct s as [|c r]; [reflexivity|].
  assert (Hc : Py.isdigit c = true).
  { unfold all_digits in H. simpl in H. by apply andb_prop in H as [? _]. }
  simpl Py.c_lstrip. destruct (isdigit_ascii c Hc) as [-> _].
  by apply c_rstrip_digits.
Qed.

Lemma underscores_ok_digits (s : string) (b : bool) :
  all_digits s = true → s ≠ EmptyString → Py.underscores_ok b s = true.
Proof.
  revert b. induction s as [|c r IH]; intros b H Hne; [done|].
  unfold all_digits in H. simpl in H. apply andb_prop in H as [Hc Hr].
  simpl. destruct (isdigit_facts c Hc) as (_ & _ & _ & ->).
  destruct r as [|c' r']; [reflexivity|]. by apply IH.
Qed.

Lemma remove_underscores_digits (s : string) :
  all_digits s = true → Py.remove_underscores s = s.
Proof.
  induction s as [|c r IH]; [reflexivity|].
  unfold all_digits. simpl. intros [Hc Hr]%andb_prop.
  destruct (isdigit_facts c Hc) as (_ & _ & _ & ->). by rewrite (IH Hr).
Qed.

Lemma parse_digits_string_of_uint (d : Decimal.uint) :
  d ≠ Decimal.Nil →
  Py.parse_digits (NilEmpty.string_of_uint d) = Some (Z.of_uint d).
Proof.
  intros Hd. unfold Py.parse_digits.
  rewrite underscores_ok_digits.
  - rewrite remove_underscores_digits by apply string_of_uint_digits.
    by rewrite NilEmpty.usu.
  - apply string_of_uint_digits.
  - by destruct d.
Qed.

Lemma int_digits (s : string) :
  all_digits s = true → s ≠ EmptyString →
  Py.int s = match Py.parse_digits s with
             | Some n => Ok n
             | None => Raise (Py.invalid_literal s)
             end.
Proof.
  intros H Hne. unfold Py.int.
  rewrite (is_ascii_digits s H), (c_strip_digits s H).
  destruct s as [|c r]; [done|].
  assert (Hc : Py.isdigit c = true).
  { unfold all_digits in H. simpl in H. by apply andb_prop in H as [? _]. }
  by destruct (isdigit_facts c Hc) as (_ & -> & -> & _).
Qed.

Lemma int_minus_digits (s : string) :
  all_digits s = true → s ≠ EmptyString →
  Py.int (String "-" s) =
    match Py.parse_digits s with
    | Some n => Ok (- n)
    | None => Raise (Py.invalid_literal (String "-" s))
    end.
Proof.
  intros H Hne. unfold Py.int.
  assert (Ha : Py.is_ascii (String "-" s) = true).
  { pose proof (is_ascii_digits s H) as Hs. unfold Py.is_ascii in *.
    simpl. exact Hs. }
  rewrite Ha.
  change (Py.c_lstrip (String "-" s)) with (String "-" s).
  assert (Hs : Py.c_rstrip (String "-" s) = String "-" s).
  { simpl. rewrite (c_rstrip_digits s H). by destruct s. }
  rewrite Hs. simpl. by destruct (Py.parse_digits s).
Qed.

Lemma to_uint_nonnil (p : positive) : Pos.to_uint p ≠ Decimal.Nil.
Proof.
  intros H. pose proof (DecimalPos.Unsigned.of_to p) as Hp.
  rewrite H in Hp. discriminate Hp.
Qed.

(** [int(str(n)) == n] for every integer. *)
Lemma int_str (n : Z) : Py.int (Py.str n) = Ok n.
Proof.
  unfold Py.str. destruct n as [|p|p].
  - reflexivity.
  - change (Z.to_int (Z.pos p)) with (Decimal.Pos (Pos.to_uint p)).
    pose proof (to_uint_nonnil p) as Hp.
    assert (Hs : NilZero.string_of_int (Decimal.Pos (Pos.to_uint p))
                 = NilEmpty.string_of_uint (Pos.to_uint p)).
    { simpl. unfold NilZero.string_of_uint. by destruct (Pos.to_uint p). }
    rewrite Hs, int_digits.
    + rewrite parse_digits_string_of_uint by done.
      f_equal. exact (DecimalZ.of_to (Z.pos p)).
    + apply string_of_uint_digits.
    + by destruct (Pos.to_uint p).
  - change (Z.to_int (Z.neg p)) with (Decimal.Neg (Pos.to_uint p)).
    pose proof (to_uint_nonnil p) as Hp.
    assert (Hs : NilZero.string_of_int (Decimal.Neg (Pos.to_uint p))
                 = String "-" (NilEmpty.string_of_uint (Pos.to_uint p))).
    { simpl. unfold NilZero.string_of_uint. by destruct (Pos.to_uint p). }
    rewrite Hs, int_minus_digits.
    + rewrite parse_digits_string_of_uint by done.
      f_equal. exact (DecimalZ.of_to (Z.neg p)).
    + apply string_of_uint_digits.
    + by destruct (Pos.to_uint p).
Qed.

(** ** Token service *)

Lemma timegm_plus_minutes (t m : Z) :
  Jwt.timegm (t + Jwt.timedelta_minutes m) = Jwt.timegm t + m * 60.
Proof.
  unfold Jwt.timegm, Jwt.timedelta_minutes.
  by rewrite Z.div_add by lia.
Qed.

Lemma timegm_le (t : Z) : Jwt.timegm t * 1000000 <= t.
Proof. unfold Jwt.timegm. pose proof (Z.mul_div_le t 1000000). lia. Qed.

Lemma encode_token_ok (environ : gmap string string) (t_exp t_iat u : Z) :
  encode_token environ t_exp t_iat u
  = Ok (Jwt.JWS ALGORITHM (SECRET_KEY environ) (issued_claims t_exp t_iat u)).
Proof.
  unfold encode_token, Jwt.encode.
  rewrite bool_decide_eq_true_2.
  - do 3 (erewrite map_imap_insert_Some; [|reflexivity]).
    rewrite map_imap_empty. simpl Jwt.timegm.
    unfold issued_claims. by rewrite timegm_plus_minutes.
  - repeat apply map_Forall_insert_2; try reflexivity. apply map_Forall_empty.
Qed.

(** What PyJWT answers for a token of the service, at any time. *)
Lemma decode_issued (environ : gmap string string) (t_exp t_iat u now : Z) :
  Jwt.decode (Jwt.JWS ALGORITHM (SECRET_KEY environ) (issued_claims t_exp t_iat u))
             (SECRET_KEY environ) [ALGORITHM] now
  = if Z.ltb now (Jwt.timegm t_iat * 1000000)
    then Raise (JwtError ImmatureSignatureError)
    else if Z.leb ((Jwt.timegm t_exp + 30 * 60) * 1000000) now
    then Raise (JwtError ExpiredSignatureError)
    else Ok (issued_claims t_exp t_iat u).
Proof.
  unfold Jwt.decode.
  rewrite !bool_decide_eq_true_2 by (done || set_solver).
  simpl. unfold Jwt.validate_claims, Jwt.validate_iat, Jwt.validate_nbf,
    Jwt.validate_exp, Jwt.validate_aud, Jwt.validate_sub, Jwt.validate_jti.
  unfold issued_claims. simplify_map_eq. simpl.
  destruct (Z.ltb now (Jwt.timegm t_iat * 1000000)); [reflexivity|].
  simpl. by destruct (Z.leb ((Jwt.timegm t_exp + 30 * 60) * 1000000) now).
Qed.

Lemma decode_token_issued (environ : gmap string string) (t_exp t_iat u now : Z) :
  decode_token environ
    (Jwt.JWS ALGORITHM (SECRET_KEY environ) (issued_claims t_exp t_iat u)) now
  = if Z.ltb now (Jwt.timegm t_iat * 1000000) then Ok None
    else if Z.leb ((Jwt.timegm t_exp + 30 * 60) * 1000000) now then Ok None
    else Ok (Some u).
Proof.
  unfold decode_token. rewrite decode_issued.
  destruct (Z.ltb now (Jwt.timegm t_iat * 1000000)); [reflexivity|].
  destruct (Z.leb ((Jwt.timegm t_exp + 30 * 60) * 1000000) now); [reflexivity|].
  simpl. unfold getitem, issued_claims. simplify_map_eq. simpl.
  by rewrite int_str.
Qed.

(** Whatever PyJWT rejects is reported as the sentinel. *)
Lemma decode_token_rejected (environ : gmap string string) (tok : Jwt.token)
    (now : Z) (e : jwt_error) :
  Jwt.decode tok (SECRET_KEY environ) [ALGORITHM] now = Raise (JwtError e) →
  decode_token environ tok now = Ok None.
Proof. unfold decode_token. intros ->. simpl. by destruct e. Qed.

Lemma decode_other_secret (environ : gmap string string)
    (alg key : string) (claims : gmap string Jwt.jval) (now : Z) :
  key ≠ SECRET_KEY environ →
  ∃ e, Jwt.decode (Jwt.JWS alg key claims) (SECRET_KEY environ) [ALGORITHM] now
       = Raise (JwtError e).
Proof.
  intros Hk. unfold Jwt.decode.
  destruct (bool_decide (alg ∈ [ALGORITHM])); simpl; [|by eexists].
  rewrite bool_decide_eq_false_2 by done. by eexists.
Qed.

(** C5. A token issued for user [u] when the clock reads [t] embeds [u]
    (as [str(u)], which [int] reads back), [iat = t] and
    [exp = t + 30 minutes] (in whole seconds); validated once issued and
    before its expiry it gives [u], from its expiry on it gives the
    invalid sentinel. *)
Theorem token_issue_then_validate (environ : gmap string string) (u t : Z) :
  ∃ tok claims,
    encode_token environ t t u = Ok tok ∧
    tok = Jwt.JWS ALGORITHM (SECRET_KEY environ) claims ∧
    claims !! "sub" = Some (Jwt.JStr (Py.str u)) ∧
    Py.int (Py.str u) = Ok u ∧
    claims !! "iat" = Some (Jwt.JInt (Jwt.timegm t)) ∧
    claims !! "exp"
      = Some (Jwt.JInt (Jwt.timegm (t + Jwt.timedelta_minutes 30))) ∧
    Jwt.timegm (t + Jwt.timedelta_minutes 30) = Jwt.timegm t + 30 * 60 ∧
    (∀ now, t <= now → now < (Jwt.timegm t + 30 * 60) * 1000000 →
            decode_token environ tok now = Ok (Some u)) ∧
    (∀ now, (Jwt.timegm t + 30 * 60) * 1000000 <= now →
            decode_token environ tok now = Ok None).
Proof.
  eexists _, (issued_claims t t u).
  split; [apply encode_token_ok|].
  split; [reflexivity|].
  split; [by unfold issued_claims; simplify_map_eq|].
  split; [apply int_str|].
  split; [by unfold issued_claims; simplify_map_eq|].
  split; [rewrite timegm_plus_minutes; by unfold issued_claims; simplify_map_eq|].
  split; [apply timegm_plus_minutes|].
  pose proof (timegm_le t) as Hle.
  split; intros now; rewrite decode_token_issued.
  - intros H1 H2.
    rewrite (proj2 (Z.ltb_ge _ _)) by lia.
    by rewrite (proj2 (Z.leb_gt _ _)) by lia.
  - intros H. destruct (Z.ltb now (Jwt.timegm t * 1000000)); [reflexivity|].
    by rewrite (proj2 (Z.leb_le _ _)) by lia.
Qed.

Lemma token_issue_then_validate_witness :
  ∃ tok, encode_token ∅ 5000000 5000000 42 = Ok tok ∧
         decode_token ∅ tok 6000000 = Ok (Some 42) ∧
         decode_token ∅ tok 1805000000 = Ok None.
Proof.
  destruct (token_issue_then_validate ∅ 42 5000000)
    as (tok & claims & Henc & _ & _ & _ & _ & _ & _ & Hvalid & Hexpired).
  exists tok. split; [exact Henc|]. split.
  - apply Hvalid; [lia | vm_compute; reflexivity].
  - apply Hexpired. vm_compute. discriminate.
Defined.

(** C2 (as amended). Validation answers the invalid sentinel, without
    raising, for each failure cause -- a malformed token, a token signed
    with a different secret, an expired token of the service -- and more
    generally whenever PyJWT rejects the token, so that callers cannot tell
    the causes apart; it answers the embedded identifier when the token
    verifies and its [sub] claim is a decimal integer. *)
Theorem decode_token_sentinel (environ : gmap string string)
    (tok : Jwt.token) (now : Z) :
  (invalid_cause environ now tok → decode_token environ tok now = Ok None) ∧
  (∀ e, Jwt.decode tok (SECRET_KEY environ) [ALGORITHM] now = Raise (JwtError e) →
        decode_token environ tok now = Ok None) ∧
  (∀ claims s n,
      Jwt.decode tok (SECRET_KEY environ) [ALGORITHM] now = Ok claims →
      claims !! "sub" = Some (Jwt.JStr s) → Py.int s = Ok n →
      decode_token environ tok now = Ok (Some n)).
Proof.
  split; [|split].
  - intros [raw | alg key claims Hk | t_exp t_iat u tok' Henc Hexp].
    + reflexivity.
    + destruct (decode_other_secret environ alg key claims now Hk) as [e He].
      by apply decode_token_rejected with e.
    + rewrite encode_token_ok in Henc. injection Henc as <-.
      rewrite decode_token_issued.
      destruct (Z.ltb now (Jwt.timegm t_iat * 1000000)); [reflexivity|].
      by rewrite (proj2 (Z.leb_le _ _)) by lia.
  - intros e. apply decode_token_rejected.
  - intros claims s n Hdec Hsub Hint. unfold decode_token.
    rewrite Hdec. simpl. unfold getitem. rewrite Hsub. simpl.
    by rewrite Hint.
Qed.

Lemma decode_token_sentinel_witness :
  decode_token ∅ (Jwt.Malformed "not.a.token") 0 = Ok None ∧
  decode_token ∅ (Jwt.JWS "HS256" "another-secret" ∅) 0 = Ok None ∧
  decode_token ∅
    (Jwt.JWS "HS256" "your-secret-key-here-change-in-production"
       (<["sub" := Jwt.JStr "42"]> ∅)) 0 = Ok (Some 42).
Proof.
  split; [|split].
  - apply (decode_token_sentinel ∅ (Jwt.Malformed "not.a.token") 0).
    apply Cause_malformed.
  - apply (decode_token_sentinel ∅ (Jwt.JWS "HS256" "another-secret" ∅) 0).
    apply Cause_other_secret. vm_compute. discriminate.
  - apply (decode_token_sentinel ∅
             (Jwt.JWS "HS256" "your-secret-key-here-change-in-production"
                (<["sub" := Jwt.JStr "42"]> ∅)) 0)
      with (claims := <["sub" := Jwt.JStr "42"]> ∅) (s := "42");
      vm_compute; reflexivity.
Defined.

(** C2 (as stated) fails: a token that verifies under the service's secret
    but carries no [sub] claim makes validation raise [KeyError]. *)
Lemma decode_token_raises_without_sub :
  decode_token ∅
    (Jwt.JWS "HS256" "your-secret-key-here-change-in-production"
       (<["exp" := Jwt.JInt 4102444800]> ∅)) 0
  = Raise (KeyError "sub").
Proof. vm_compute. reflexivity. Qed.

(** ** Content provider *)

(** The provider path never raises: every failure of the call is absorbed
    by the demo content. *)
Lemma _generate_with_openai_total (self : AI.AIService) (topic : string) :
  ∃ text, AI._generate_with_openai self topic = Ok text.
Proof.
  unfold AI._generate_with_openai.
  destruct (AI.client self) as [create|]; [|by eexists].
  destruct (create (AI.chat_request topic)) as [choices|e]; [|by eexists].
  simpl. destruct (AI.first_choice choices); by eexists.
Qed.

Lemma generate_report_content_total (self : AI.AIService) (topic : string) :
  ∃ text, AI.generate_report_content self topic = Ok text.
Proof.
  unfold AI.generate_report_content.
  destruct (Py.truthy_opt (AI.openai_api_key self)); [|by eexists].
  destruct (_generate_with_openai_total self topic) as [text ->]. by eexists.
Qed.

(** Without a configured credential, or without a client, the demo content
    is returned. *)
Lemma generate_without_credential (self : AI.AIService) (topic : string) :
  Py.truthy_opt (AI.openai_api_key self) = false ∨ AI.client self = None →
  AI.generate_report_content self topic
  = Ok (AI._generate_demo_content self topic).
Proof.
  unfold AI.generate_report_content, AI._generate_with_openai.
  intros [-> | ->]; [reflexivity|].
  by destruct (Py.truthy_opt (AI.openai_api_key self)).
Qed.

(** When the call raises, answers no choice, or answers no (or an empty)
    content, the demo content is returned. *)
Lemma generate_when_call_fails (self : AI.AIService) (topic : string)
    (create : AI.OpenAIClient) :
  AI.client self = Some create →
  (∀ content rest,
     create (AI.chat_request topic) = Ok (Some content :: rest) →
     content = EmptyString) →
  AI.generate_report_content self topic
  = Ok (AI._generate_demo_content self topic).
Proof.
  intros Hc Hfail.
  unfold AI.generate_report_content, AI._generate_with_openai. rewrite Hc.
  destruct (create (AI.chat_request topic)) as [[|[content|] rest]|e] eqn:Hr;
    simpl; try by destruct (Py.truthy_opt (AI.openai_api_key self)).
  rewrite (Hfail content rest eq_refl).
  by destruct (Py.truthy_opt (AI.openai_api_key self)).
Qed.

(** When the call answers a non-empty content, that content is returned
    with its surrounding whitespace removed. *)
Lemma generate_when_call_succeeds (self : AI.AIService) (topic : string)
    (create : AI.OpenAIClient) (content : string) (rest : AI.ChatResponse) :
  Py.truthy_opt (AI.openai_api_key self) = true →
  AI.client self = Some create →
  create (AI.chat_request topic) = Ok (Some content :: rest) →
  content ≠ EmptyString →
  AI.generate_report_content self topic = Ok (Py.strip content).
Proof.
  intros Hk Hc Hr Hne.
  unfold AI.generate_report_content, AI._generate_with_openai.
  rewrite Hk, Hc, Hr. simpl. unfold AI.content_or_demo.
  by destruct content.
Qed.

(** C1, at the input where the code departs from it: the provider answers
    three spaces.  The content is not empty, so it is kept and trimmed, and
    [generate_report_content] returns the empty string, which is not the
    demo content. *)
Theorem generate_whitespace_only_content :
  let self := {| AI.openai_api_key := Some "sk-configured";
                 AI.client := Some (λ _, Ok [Some "   "]) |} in
  AI.generate_report_content self "Quantum Computing" = Ok EmptyString ∧
  AI._generate_demo_content self "Quantum Computing" ≠ EmptyString.
Proof. split; [vm_compute; reflexivity | discriminate]. Qed.

(** C6. The demo generator depends on the topic alone: two calls with
    the same topic, whatever the state of the service objects they are made
    on, give the same bytes. *)
Theorem _generate_demo_content_deterministic
    (self1 self2 : AI.AIService) (topic : string) :
  AI._generate_demo_content self1 topic = AI._generate_demo_content self2 topic ∧
  list_byte_of_string (AI._generate_demo_content self1 topic)
  = list_byte_of_string (AI._generate_demo_content self2 topic).
Proof. split; reflexivity. Qed.

Lemma contains_intro (needle pre post : string) :
  AI.contains needle (pre +:+ needle +:+ post).
Proof. by exists pre, post. Qed.

Lemma contains_prefix (needle post : string) :
  AI.contains needle (needle +:+ post).
Proof. by exists EmptyString, post. Qed.

Lemma demo_content_sections (self : AI.AIService) (topic : string) :
  AI._generate_demo_content self topic
  = AI.render_sections (AI.demo_sections topic).
Proof.
  unfold AI._generate_demo_content, AI.demo_sections, AI.render_sections,
    AI.render_section, fst, snd.
  unfold AI.executive_summary_body, AI.introduction_and_background_body,
    AI.current_state_analysis_body, AI.key_findings_and_insights_body,
    AI.challenges_and_opportunities_body, AI.future_trends_and_predictions_body,
    AI.recommendations_body, AI.conclusion_body.
  rewrite ?append_assoc. reflexivity.
Qed.

(** C7. The demo content is the eight sections, in order, each made of
    its heading, a colon, a line break and its body, and the body of each
    section contains the topic verbatim. *)
Theorem demo_content_topic_in_every_section (self : AI.AIService) (topic : string) :
  AI._generate_demo_content self topic
  = AI.render_sections (AI.demo_sections topic) ∧
  map fst (AI.demo_sections topic) = AI.section_names ∧
  length (AI.demo_sections topic) = 8%nat ∧
  Forall (λ sec, AI.contains topic (snd sec)) (AI.demo_sections topic).
Proof.
  split; [apply demo_content_sections|].
  split; [reflexivity|]. split; [reflexivity|].
  unfold AI.demo_sections.
  repeat apply Forall_cons_2; try apply Forall_nil_2; simpl;
    first [apply contains_intro | apply contains_prefix].
Qed.

(** ** Timestamps *)

Lemma digits_of_width_append (w1 w2 : nat) (a b : string) :
  digits_of_width w1 a = true → digits_of_width w2 b = true →
  digits_of_width (w1 + w2) (a +:+ b) = true.
Proof.
  unfold digits_of_width.
  intros [Ha1 Ha2]%andb_prop [Hb1 Hb2]%andb_prop.
  apply Nat.eqb_eq in Ha1, Hb1.
  rewrite length_append, list_ascii_append, forallb_app, Ha1, Hb1, Ha2, Hb2.
  by rewrite Nat.eqb_refl.
Qed.

Lemma field_digits_below (w bound : nat) :
  forallb (λ k, digits_of_width w (field w (Z.of_nat k))) (seq 0 bound) = true →
  ∀ n, 0 <= n < Z.of_nat bound → digits_of_width w (field w n) = true.
Proof.
  intros H n Hn. rewrite forallb_forall in H.
  specialize (H (Z.to_nat n)). rewrite Z2Nat.id in H by lia.
  apply H, in_seq. lia.
Qed.

Lemma field2_digits (n : Z) :
  0 <= n < 100 → digits_of_width 2 (field 2 n) = true.
Proof. apply (field_digits_below 2 100). vm_compute. reflexivity. Qed.

Lemma field4_digits (n : Z) :
  0 <= n < 10000 → digits_of_width 4 (field 4 n) = true.
Proof.
  intros Hn. apply (field_digits_below 4 (100 * 100)); [|lia].
  vm_compute. reflexivity.
Qed.

Lemma days_in_month_le (y m : Z) : days_in_month y m <= 31.
Proof.
  unfold days_in_month.
  repeat match goal with |- context [if ?b then _ else _] => destruct b end; lia.
Qed.

(** The date and the time of day of a stamp. *)
Lemma strftime_stamp_shape (dt : datetime) :
  datetime_valid dt →
  let date := field 4 (year dt) +:+ field 2 (month dt) +:+ field 2 (day dt) in
  let time := field 2 (hour dt) +:+ field 2 (minute dt) +:+ field 2 (second dt) in
  strftime_stamp dt = date +:+ "_" +:+ time ∧
  digits_of_width 8 date = true ∧ digits_of_width 6 time = true.
Proof.
  intros (Hy & Hm & Hd & HH & HM & HS). simpl.
  pose proof (days_in_month_le (year dt) (month dt)).
  split; [unfold strftime_stamp; by rewrite !append_assoc|].
  split.
  - apply (digits_of_width_append 4 4); [apply field4_digits; lia|].
    apply (digits_of_width_append 2 2); apply field2_digits; lia.
  - apply (digits_of_width_append 2 4); [apply field2_digits; lia|].
    apply (digits_of_width_append 2 2); apply field2_digits; lia.
Qed.

(** ** Request handling *)

Section MainProperties.

Variable environ : gmap string string.
Variable bcrypt_hash : string → string → string.
Variable bcrypt_verify : string → string → bool.
Variable pdf_document : string → string → string → datetime → string.

(** The application, with its collaborators fixed. *)
#[local] Abbreviation serve :=
  (handle environ bcrypt_hash bcrypt_verify pdf_document).
#[local] Abbreviation served :=
  (step environ bcrypt_hash bcrypt_verify pdf_document).
#[local] Abbreviation reached :=
  (reachable environ bcrypt_hash bcrypt_verify pdf_document).


(** *** Signup *)

Lemma signup_email_taken (user : UserCreate) (env : Env) (st : State) :
  is_Some (user_by_email (db st) (uc_email user)) →
  signup environ bcrypt_hash user env st
  = (Raise (HTTPException HTTP_400_BAD_REQUEST "Email already registered"), st).
Proof. intros [u Hu]. unfold signup. by rewrite Hu. Qed.

(** A signup whose email or username is taken fails and leaves the store as
    it was. *)
Lemma signup_duplicate_fails (user : UserCreate) (env : Env) (st : State) :
  is_Some (user_by_email (db st) (uc_email user)) ∨
  is_Some (user_by_username (db st) (uc_username user)) →
  ∃ e, signup environ bcrypt_hash user env st = (Raise e, st).
Proof.
  intros H. unfold signup, add_user.
  destruct (user_by_email (db st) (uc_email user)) as [u|]; [by eexists|].
  destruct H as [[u Hu]|[u Hu]]; [discriminate Hu|].
  rewrite Hu. by eexists.
Qed.

(** *** Frame: the reports table *)

Lemma respond_state {A} (f : A → response) (r : result A * State) :
  snd (respond f r) = snd r.
Proof. by destruct r as [[a|e] st]. Qed.

Lemma authenticated_state {A} (c : Jwt.token) (env : Env) (st st0 : State)
    (handler : Z → result A * State) :
  (∀ uid, reports (db (snd (handler uid))) = reports (db st0)) →
  st = st0 →
  reports (db (snd (authenticated environ c env st handler))) = reports (db st0).
Proof.
  intros H ->. unfold authenticated.
  by destruct (get_current_user environ c env).
Qed.

Lemma generate_report_db (body : ReportRequest) (uid : Z) (env : Env)
    (st : State) :
  db (snd (generate_report pdf_document body uid env st)) = db st.
Proof.
  unfold generate_report, generate_report_body, create_report.
  destruct (AI.generate_report_content _ _); [|reflexivity].
  destruct (username_of _); [|reflexivity].
  by destruct (io_error env).
Qed.

Lemma handle_reports (req : request) (env : Env) (st : State) :
  reports (db (snd (serve req env st))) = reports (db st).
Proof.
  destruct req as [u|u|c|c body|c filename| |]; unfold handle;
    rewrite respond_state.
  - unfold signup, add_user.
    destruct (user_by_email _ _); [reflexivity|].
    by destruct (user_by_username _ _).
  - unfold login. destruct (user_by_email _ _); [|reflexivity].
    by destruct (bcrypt_verify _ _).
  - apply authenticated_state; [|reflexivity].
    intros uid. unfold get_current_user_info. by destruct (user_by_id _ _).
  - apply authenticated_state; [|reflexivity].
    intros uid. by rewrite generate_report_db.
  - apply authenticated_state; [|reflexivity].
    intros uid. unfold download_report. by destruct (negb _).
  - reflexivity.
  - reflexivity.
Qed.

Lemma step_reports (st st' : State) :
  served st st' → reports (db st') = reports (db st).
Proof. intros (req & env & <-). apply handle_reports. Qed.

(** C9. No boundary operation writes to the reports table: whatever
    requests are served after start-up, the table is still empty. *)
Theorem reports_table_stays_empty (st : State) :
  reached st → reports (db st) = [].
Proof.
  intros H.
  apply (rtc_ind_r (R := served) (λ s, reports (db s) = []) initial_state);
    [reflexivity| |exact H].
  intros st1 st2 _ Hstep IH. by rewrite (step_reports _ _ Hstep).
Qed.

(** *** Generate *)

(** C10. With a valid token whose user no longer exists, generation fails
    with the catch-all 500 response, its one message carrying the failed
    attribute access; nothing is written. *)
Theorem generate_report_unknown_user (c : Jwt.token) (body : ReportRequest)
    (env : Env) (st : State) (uid : Z) :
  get_current_user environ c env = Ok uid →
  user_by_id (db st) uid = None →
  serve (GenerateReport c body) env st
  = (Raise (HTTPException HTTP_500_INTERNAL_SERVER_ERROR
       "Error generating report: 'NoneType' object has no attribute 'username'"),
     st) ∧
  http_status (fst (serve (GenerateReport c body) env st))
  ≠ HTTP_404_NOT_FOUND.
Proof.
  intros Hc Hu.
  assert (serve (GenerateReport c body) env st
          = (Raise (HTTPException HTTP_500_INTERNAL_SERVER_ERROR
               "Error generating report: 'NoneType' object has no attribute 'username'"),
             st)) as ->.
  { unfold handle, authenticated. rewrite Hc.
    unfold generate_report, generate_report_body. rewrite Hu.
    by destruct (generate_report_content_total (ai_service env) (rr_topic body))
      as [text ->]. }
  split; [reflexivity | discriminate].
Qed.

(** C8. A generate-report request that succeeds was made by a user of the
    store; the filename of its handle is [report_], the user name, [_], the
    eight digits of the date, [_], the six digits of the time and [.pdf];
    the artifact is in the content store under [reports/] and that name; the
    retrieval path is [/download/] and that name. *)
Theorem generate_report_handle (c : Jwt.token) (body : ReportRequest)
    (env : Env) (st st' : State) (h : ReportHandle) :
  datetime_valid (now env) →
  serve (GenerateReport c body) env st = (Ok (RHandle h), st') →
  ∃ uid u content date time,
    get_current_user environ c env = Ok uid ∧
    user_by_id (db st) uid = Some u ∧
    AI.generate_report_content (ai_service env) (rr_topic body) = Ok content ∧
    date = field 4 (year (now env)) +:+ field 2 (month (now env))
             +:+ field 2 (day (now env)) ∧
    time = field 2 (hour (now env)) +:+ field 2 (minute (now env))
             +:+ field 2 (second (now env)) ∧
    digits_of_width 8 date = true ∧ digits_of_width 6 time = true ∧
    rh_filename h
      = "report_" +:+ User.username u +:+ "_" +:+ date +:+ "_" +:+ time +:+ ".pdf" ∧
    files st' !! ("reports/" +:+ rh_filename h)
      = Some (pdf_document (rr_topic body) content (User.username u) (now env)) ∧
    db st' = db st ∧
    download_url h = "/download/" +:+ rh_filename h.
Proof.
  intros Hdt Hh.
  destruct (strftime_stamp_shape (now env) Hdt) as (Hstamp & Hdate & Htime).
  unfold handle, authenticated in Hh.
  destruct (get_current_user environ c env) as [uid|e] eqn:Hc; [|discriminate Hh].
  unfold generate_report, generate_report_body, create_report in Hh.
  destruct (AI.generate_report_content (ai_service env) (rr_topic body))
    as [content|e] eqn:Hai; [|discriminate Hh].
  destruct (user_by_id (db st) uid) as [u|] eqn:Hu; [|discriminate Hh].
  simpl in Hh. destruct (io_error env); [discriminate Hh|].
  simpl in Hh. injection Hh as <- <-.
  exists uid, u, content. eexists _, _.
  split; [done|]. split; [done|]. split; [done|].
  split; [reflexivity|]. split; [reflexivity|].
  split; [exact Hdate|]. split; [exact Htime|].
  assert (Hname :
    "report_" +:+ User.username u +:+ "_" +:+ strftime_stamp (now env) +:+ ".pdf"
    = "report_" +:+ User.username u +:+ "_" +:+
      (field 4 (year (now env)) +:+ field 2 (month (now env))
         +:+ field 2 (day (now env))) +:+ "_" +:+
      (field 2 (hour (now env)) +:+ field 2 (minute (now env))
         +:+ field 2 (second (now env))) +:+ ".pdf").
  { rewrite Hstamp. by rewrite !append_assoc. }
  cbn [rh_filename download_url files set_files db].
  rewrite <- Hname.
  split; [reflexivity|]. split; [apply lookup_insert_eq|].
  split; reflexivity.
Qed.

(** *** Download *)


End MainProperties.

(** ** The properties at sample inputs *)

(** C3, at the input where the code departs from it: the username is
    taken, the email is not.  The insert is refused by the store and the
    store is unchanged, but the failure leaves the handler as an
    [IntegrityError] (a 500 response), not as the 400 response that reports
    a duplicate. *)
Theorem signup_taken_username (environ : gmap string string)
    (bcrypt_hash : string → string → string) (env : Env) :
  let request := {| uc_email := "bob@example.com"; uc_username := "alice";
                    uc_password := "builder" |} in
  user_by_username (db Sample.store) (uc_username request) = Some Sample.alice ∧
  signup environ bcrypt_hash request env Sample.store
  = (Raise (IntegrityError "UNIQUE constraint failed: users.username"),
     Sample.store) ∧
  http_status (fst (signup environ bcrypt_hash request env Sample.store))
  = HTTP_500_INTERNAL_SERVER_ERROR.
Proof. repeat split. Qed.

Lemma reports_table_stays_empty_witness :
  let st := snd (handle ∅ Sample.hash Sample.verify Sample.pdf
                   (Signup {| uc_email := "alice@example.com";
                              uc_username := "alice";
                              uc_password := "wonderland" |})
                   Sample.env initial_state) in
  reachable ∅ Sample.hash Sample.verify Sample.pdf st ∧ reports (db st) = [].
Proof.
  intros st.
  assert (Hst : reachable ∅ Sample.hash Sample.verify Sample.pdf st).
  { apply rtc_once. eexists _, Sample.env. reflexivity. }
  split; [exact Hst|].
  exact (reports_table_stays_empty ∅ Sample.hash Sample.verify Sample.pdf st Hst).
Defined.

Lemma generate_report_unknown_user_witness :
  get_current_user ∅ (Sample.token_for 7) Sample.env = Ok 7 ∧
  user_by_id (db Sample.store) 7 = None ∧
  handle ∅ Sample.hash Sample.verify Sample.pdf
    (GenerateReport (Sample.token_for 7) {| rr_topic := "Quantum Computing" |})
    Sample.env Sample.store
  = (Raise (HTTPException 500
       "Error generating report: 'NoneType' object has no attribute 'username'"),
     Sample.store).
Proof.
  assert (H1 : get_current_user ∅ (Sample.token_for 7) Sample.env = Ok 7)
    by (vm_compute; reflexivity).
  assert (H2 : user_by_id (db Sample.store) 7 = None) by reflexivity.
  split; [exact H1|]. split; [exact H2|].
  exact (proj1 (generate_report_unknown_user ∅ Sample.hash Sample.verify
                  Sample.pdf (Sample.token_for 7)
                  {| rr_topic := "Quantum Computing" |}
                  Sample.env Sample.store 7 H1 H2)).
Defined.



Lemma generate_report_handle_witness :
  datetime_valid (now Sample.env) ∧
  ∃ h st',
    handle ∅ Sample.hash Sample.verify Sample.pdf
      (GenerateReport (Sample.token_for 1) {| rr_topic := "Quantum Computing" |})
      Sample.env Sample.store
    = (Ok (RHandle h), st') ∧
    rh_filename h = "report_alice_20240517_103045.pdf" ∧
    download_url h = "/download/report_alice_20240517_103045.pdf" ∧
    is_Some (files st' !! "reports/report_alice_20240517_103045.pdf").
Proof.
  assert (Hdt : datetime_valid (now Sample.env)).
  { unfold datetime_valid. simpl. vm_compute. intuition discriminate. }
  split; [exact Hdt|].
  destruct (handle ∅ Sample.hash Sample.verify Sample.pdf
              (GenerateReport (Sample.token_for 1)
                 {| rr_topic := "Quantum Computing" |})
              Sample.env Sample.store) as [[r|e] st'] eqn:Hrun;
    [|vm_compute in Hrun; discriminate Hrun].
  destruct r as [a|p|h|f|j]; try (vm_compute in Hrun; discriminate Hrun).
  exists h, st'. split; [reflexivity|].
  destruct (generate_report_handle ∅ Sample.hash Sample.verify Sample.pdf
              _ _ _ _ _ _ Hdt Hrun)
    as (uid & u & content & date & time & Hc & Hu & _ & -> & -> & _ & _
        & Hname & Hfile & _ & Hurl).
  vm_compute in Hc. injection Hc as <-.
  vm_compute in Hu. injection Hu as <-.
  assert (Hn : rh_filename h = "report_alice_20240517_103045.pdf")
    by (rewrite Hname; vm_compute; reflexivity).
  rewrite Hn in Hfile, Hurl.
  split; [exact Hn|]. split; [exact Hurl|]. by eexists.
Defined.

(** * Further properties *)

(** ** The builtins beyond ASCII *)

(** [strip] removes the whitespace of Unicode, here a no-break space
    (U+00A0) and an ideographic space (U+3000) around a word. *)
Example strip_unicode_whitespace :
  Py.strip (Scenario.no_break_space +:+ "report" +:+ Scenario.ideographic_space)
  = "report" ∧
  Py.strip Scenario.no_break_space = EmptyString.
Proof. split; vm_compute; reflexivity. Qed.

(** [int] skips the whitespace of the C locale and of Unicode beyond
    ASCII, not the separators U+001C-U+001F, and reads the decimal digits of
    any script (here fullwidth digits). *)
Example int_beyond_ascii :
  Py.int (Scenario.no_break_space +:+ "8080") = Ok 8080 ∧
  Py.int "８０８０" = Ok 8080 ∧
  Py.int ("80" +:+ Scenario.unit_separator)
  = Raise (Py.invalid_literal ("80" +:+ Scenario.unit_separator)).
Proof. repeat split; vm_compute; reflexivity. Qed.

(** ** Token service *)

Lemma int_cases (s : string) :
  (∃ n, Py.int s = Ok n) ∨ Py.int s = Raise (Py.invalid_literal s).
Proof.
  unfold Py.int. cbv zeta.
  destruct (Py.c_rstrip _) as [|c r]; [by right|].
  destruct (Ascii.eqb c "-"); [|destruct (Ascii.eqb c "+")];
    match goal with
    | |- context [option_map _ ?o] => destruct o
    | |- context [match ?o with Some _ => _ | None => _ end] => destruct o
    end; simpl; eauto.
Qed.

Lemma int_of_jval_not_jwt (v : Jwt.jval) (e : exn) :
  Jwt.int_of_jval v = Raise e → ∀ j, e ≠ JwtError j.
Proof.
  destruct v as [|b|n|s]; simpl; try discriminate.
  - intros [= <-] j. discriminate.
  - destruct (int_cases s) as [[n ->]| ->]; [discriminate|].
    intros [= <-] j. discriminate.
Qed.

(** The sentinel means that PyJWT refused the token, and nothing else: a
    token that PyJWT accepts is answered with an identifier or an
    exception, never with [None]. *)
Theorem decode_token_none_iff_rejected (environ : gmap string string)
    (tok : Jwt.token) (now : Z) :
  decode_token environ tok now = Ok None ↔
  ∃ e, Jwt.decode tok (SECRET_KEY environ) [ALGORITHM] now = Raise (JwtError e).
Proof.
  split; [|intros [e He]; by apply decode_token_rejected with e].
  unfold decode_token.
  destruct (Jwt.decode tok (SECRET_KEY environ) [ALGORITHM] now) as [claims|e].
  - simpl. unfold getitem. destruct (claims !! "sub") as [v|]; simpl;
      [|discriminate].
    destruct (Jwt.int_of_jval v) as [n|e] eqn:Hv; simpl; [discriminate|].
    pose proof (int_of_jval_not_jwt v e Hv) as Hne.
    destruct e; try discriminate. by destruct (Hne e).
  - simpl. destruct e; try discriminate. by eexists.
Qed.

(** Only the configured algorithm is accepted: a token whose header names
    another one is refused, whatever its key and its claims. *)
Theorem decode_token_wrong_algorithm (environ : gmap string string)
    (alg key : string) (claims : gmap string Jwt.jval) (now : Z) :
  alg ≠ ALGORITHM →
  decode_token environ (Jwt.JWS alg key claims) now = Ok None.
Proof.
  intros Halg. apply decode_token_rejected with InvalidAlgorithmError.
  unfold Jwt.decode.
  rewrite (bool_decide_eq_false_2 (alg ∈ [ALGORITHM])); [reflexivity|].
  intros Hin. apply list_elem_of_singleton in Hin. by apply Halg.
Qed.

Lemma decode_token_wrong_algorithm_witness :
  decode_token ∅
    (Jwt.JWS "none" "your-secret-key-here-change-in-production"
       (<["sub" := Jwt.JStr "1"]> ∅)) 0 = Ok None.
Proof.
  apply (decode_token_wrong_algorithm ∅ "none"). vm_compute. discriminate.
Defined.

(** A token of the service never validates as another user: whatever the
    two clock readings at issuance and the time of validation, the answer
    is the sentinel or the user the token was issued for, and it is that
    user exactly from the issued-at second up to the expiry. *)
Theorem issued_token_validates_as_its_user (environ : gmap string string)
    (t_exp t_iat u now : Z) :
  ∃ tok,
    encode_token environ t_exp t_iat u = Ok tok ∧
    (decode_token environ tok now = Ok (Some u) ∨
     decode_token environ tok now = Ok None) ∧
    (decode_token environ tok now = Ok (Some u) ↔
     Jwt.timegm t_iat * 1000000 <= now
       < (Jwt.timegm t_exp + ACCESS_TOKEN_EXPIRE_MINUTES * 60) * 1000000).
Proof.
  eexists. split; [apply encode_token_ok|].
  rewrite decode_token_issued. unfold ACCESS_TOKEN_EXPIRE_MINUTES.
  destruct (Z.ltb_spec now (Jwt.timegm t_iat * 1000000)) as [Hlt|Hge].
  { split; [by right|]. split; [discriminate | lia]. }
  destruct (Z.leb_spec ((Jwt.timegm t_exp + 30 * 60) * 1000000) now) as [Hle|Hgt].
  { split; [by right|]. split; [discriminate | lia]. }
  split; [by left|]. split; [lia | reflexivity].
Qed.

(** ** Content provider *)

Lemma demo_content_nonempty (self : AI.AIService) (topic : string) :
  AI._generate_demo_content self topic ≠ EmptyString.
Proof. discriminate. Qed.

(** A service built from an environment without a usable credential --
    [OPENAI_API_KEY] unset or empty, or a client constructor that raises --
    answers every topic with the demo content. *)
Theorem service_without_usable_credential (environ : gmap string string)
    (OpenAI : string → result AI.OpenAIClient) (topic : string) :
  (Py.truthy_opt (getenv environ "OPENAI_API_KEY") = false ∨
   ∀ key, getenv environ "OPENAI_API_KEY" = Some key → ∃ e, OpenAI key = Raise e) →
  AI.generate_report_content (AI.init environ OpenAI) topic
  = Ok (AI._generate_demo_content (AI.init environ OpenAI) topic).
Proof.
  intros H. apply generate_without_credential.
  destruct H as [H|H]; [by left|right].
  unfold AI.init. simpl.
  destruct (getenv environ "OPENAI_API_KEY") as [key|]; [|reflexivity].
  destruct (Py.truthy key); [|reflexivity].
  by destruct (H key eq_refl) as [e ->].
Qed.

Lemma service_without_usable_credential_witness :
  AI.generate_report_content
    (AI.init (<["OPENAI_API_KEY" := "sk-revoked"]> ∅)
             (λ _, Raise (APIError "client could not be initialised")))
    "Quantum Computing"
  = Ok (AI._generate_demo_content Sample.service "Quantum Computing").
Proof.
  apply (service_without_usable_credential (<["OPENAI_API_KEY" := "sk-revoked"]> ∅)
           (λ _, Raise (APIError "client could not be initialised"))).
  right. intros key _. by eexists.
Defined.

(** The content service never raises, and what it returns is either the
    demo content or the first content of the provider's answer, trimmed. *)
Theorem generate_report_content_outcome (self : AI.AIService) (topic : string) :
  ∃ text,
    AI.generate_report_content self topic = Ok text ∧
    (text = AI._generate_demo_content self topic ∨
     ∃ create content rest,
       AI.client self = Some create ∧
       create (AI.chat_request topic) = Ok (Some content :: rest) ∧
       content ≠ EmptyString ∧ text = Py.strip content).
Proof.
  unfold AI.generate_report_content, AI._generate_with_openai.
  destruct (Py.truthy_opt (AI.openai_api_key self)); [|eauto].
  destruct (AI.client self) as [create|]; [|simpl; eauto].
  destruct (create (AI.chat_request topic)) as [[|[content|] rest]|e] eqn:Hr;
    simpl; eauto.
  destruct content as [|c r]; simpl; [eauto|].
  eexists. split; [reflexivity|]. right.
  exists create, (String c r), rest. by repeat split.
Qed.

(** The body text is empty in one case only: a credential is configured
    and the provider answers a non-empty content made of whitespace. *)
Theorem generate_empty_iff_blank_content (self : AI.AIService) (topic : string) :
  AI.generate_report_content self topic = Ok EmptyString ↔
  Py.truthy_opt (AI.openai_api_key self) = true ∧
  ∃ create content rest,
    AI.client self = Some create ∧
    create (AI.chat_request topic) = Ok (Some content :: rest) ∧
    content ≠ EmptyString ∧ Py.strip content = EmptyString.
Proof.
  pose proof (demo_content_nonempty self topic) as Hdemo.
  split.
  - unfold AI.generate_report_content, AI._generate_with_openai.
    destruct (Py.truthy_opt (AI.openai_api_key self)); [|by intros [=]].
    destruct (AI.client self) as [create|]; [|by intros [=]].
    destruct (create (AI.chat_request topic)) as [[|[content|] rest]|e] eqn:Hr;
      simpl; try by intros [=].
    destruct content as [|c r]; simpl; [by intros [=]|].
    intros [= Hs]. split; [reflexivity|].
    exists create, (String c r), rest. by repeat split.
  - intros (Hk & create & content & rest & Hc & Hr & Hne & Hs).
    by rewrite (generate_when_call_succeeds self topic create content rest), Hs.
Qed.

(** *** The demo content determines its topic *)

Lemma append_inj_l (a x y : string) : a +:+ x = a +:+ y → x = y.
Proof.
  induction a as [|c a IH]; [done|].
  rewrite !append_cons. intros [= H]. by apply IH.
Qed.

Lemma append_inj_same_length (a b x y : string) :
  String.length a = String.length b → a +:+ x = b +:+ y → a = b.
Proof.
  revert b. induction a as [|c a IH]; intros [|d b] Hlen; try discriminate;
    [done|].
  rewrite !append_cons. intros [= -> H]. f_equal. apply (IH b); [|done].
  simpl in Hlen. lia.
Qed.

(** The topic is interpolated ten times into 4379 bytes of fixed text. *)
Lemma demo_content_length (self : AI.AIService) (topic : string) :
  String.length (AI._generate_demo_content self topic)
  = (4379 + 10 * String.length topic)%nat.
Proof.
  unfold AI._generate_demo_content. rewrite !length_append.
  repeat match goal with
         | |- context [String.length (String ?c ?s)] =>
             let n := eval vm_compute in (String.length (String c s)) in
             change (String.length (String c s)) with n
         end.
  generalize (String.length topic); intros n.
  apply Nat2Z.inj. rewrite !Nat2Z.inj_add, !Nat2Z.inj_mul.
  simpl Z.of_nat. lia.
Qed.

(** Distinct topics have distinct demo contents. *)
Theorem demo_content_injective (self1 self2 : AI.AIService) (topic1 topic2 : string) :
  AI._generate_demo_content self1 topic1 = AI._generate_demo_content self2 topic2 →
  topic1 = topic2.
Proof.
  intros H.
  assert (Hlen : String.length topic1 = String.length topic2).
  { apply (f_equal String.length) in H. rewrite !demo_content_length in H. lia. }
  unfold AI._generate_demo_content in H.
  apply append_inj_l in H. by apply append_inj_same_length in H.
Qed.

Lemma demo_content_injective_witness :
  "Quantum Computing" = "Quantum Computing".
Proof.
  apply (demo_content_injective Sample.service Sample.service). reflexivity.
Defined.

(** ** The store *)

Lemma find_app {A} (f : A → bool) (l k : list A) :
  List.find f (l ++ k)
  = match List.find f l with
    | Some x => Some x
    | None => List.find f k
    end.
Proof.
  induction l as [|x l IH]; [reflexivity|].
  simpl. by destruct (f x).
Qed.

Lemma next_user_id_above (d : DB) (u : User.t) :
  u ∈ users d → User.id u < next_user_id d.
Proof.
  unfold next_user_id. induction (users d) as [|x l IH]; intros Hin.
  - by apply elem_of_nil in Hin.
  - apply elem_of_cons in Hin as [->|Hin]; simpl; [lia|].
    specialize (IH Hin). lia.
Qed.

Lemma user_by_email_none (d : DB) (email : string) :
  user_by_email d email = None → email ∉ User.email <$> users d.
Proof.
  intros Hnone (u & -> & Hin)%list_elem_of_fmap.
  apply list_elem_of_In in Hin.
  pose proof (List.find_none _ _ Hnone u Hin) as Hf. simpl in Hf.
  by rewrite String.eqb_refl in Hf.
Qed.

Lemma user_by_username_none (d : DB) (name : string) :
  user_by_username d name = None → name ∉ User.username <$> users d.
Proof.
  intros Hnone (u & -> & Hin)%list_elem_of_fmap.
  apply list_elem_of_In in Hin.
  pose proof (List.find_none _ _ Hnone u Hin) as Hf. simpl in Hf.
  by rewrite String.eqb_refl in Hf.
Qed.

Lemma user_by_id_none (d : DB) (uid : Z) :
  (∀ u, u ∈ users d → User.id u ≠ uid) → user_by_id d uid = None.
Proof.
  unfold user_by_id. induction (users d) as [|x l IH]; intros H; [reflexivity|].
  simpl. destruct (Z.eqb_spec (User.id x) uid) as [Heq|_].
  - destruct (H x); [left | done].
  - apply IH. intros u Hu. apply H. by right.
Qed.

(** What a successful insert has checked and done. *)
Lemma add_user_ok (d d' : DB) (email name hashed : string) (created : Z)
    (u : User.t) :
  add_user d email name hashed created = Ok (u, d') →
  user_by_email d email = None ∧ user_by_username d name = None ∧
  u = {| User.id := next_user_id d; User.email := email;
         User.username := name; User.hashed_password := hashed;
         User.created_at := created |} ∧
  d' = {| users := users d ++ [u]; reports := reports d |}.
Proof.
  unfold add_user.
  destruct (user_by_email d email); [discriminate|].
  destruct (user_by_username d name); [discriminate|].
  by intros [= <- <-].
Qed.

(** One request either leaves the [users] table as it is or appends one
    row, whose key, email and username are new. *)
Lemma handle_users (environ : gmap string string)
    (bcrypt_hash : string → string → string)
    (bcrypt_verify : string → string → bool)
    (pdf_document : string → string → string → datetime → string)
    (req : request) (env : Env) (st : State) :
  let st' := snd (handle environ bcrypt_hash bcrypt_verify pdf_document req env st) in
  users (db st') = users (db st) ∨
  ∃ u, users (db st') = (users (db st) ++ [u])%list ∧
       User.id u = next_user_id (db st) ∧
       user_by_email (db st) (User.email u) = None ∧
       user_by_username (db st) (User.username u) = None.
Proof.
  destruct req as [u|u|c|c body|c filename| |]; simpl; rewrite ?respond_state.
  - unfold signup.
    destruct (user_by_email (db st) (uc_email u)); [by left|].
    destruct (add_user _ _ _ _ _) as [[db_user d]|e] eqn:Hadd; [|by left].
    apply add_user_ok in Hadd as (He & Hn & -> & ->).
    right. eexists. by repeat split.
  - left. unfold login. destruct (user_by_email _ _); [|reflexivity].
    by destruct (bcrypt_verify _ _).
  - left. unfold authenticated.
    destruct (get_current_user environ c env); [|reflexivity].
    unfold get_current_user_info. by destruct (user_by_id _ _).
  - left. unfold authenticated.
    destruct (get_current_user environ c env); [|reflexivity].
    by rewrite generate_report_db.
  - left. unfold authenticated.
    destruct (get_current_user environ c env); [|reflexivity].
    unfold download_report. by destruct (negb _).
  - by left.
  - by left.
Qed.

(** One request either leaves the content store as it is or writes one
    file. *)
Lemma handle_files (environ : gmap string string)
    (bcrypt_hash : string → string → string)
    (bcrypt_verify : string → string → bool)
    (pdf_document : string → string → string → datetime → string)
    (req : request) (env : Env) (st : State) :
  let st' := snd (handle environ bcrypt_hash bcrypt_verify pdf_document req env st) in
  files st' = files st ∨ ∃ p v, files st' = <[p := v]> (files st).
Proof.
  destruct req as [u|u|c|c body|c filename| |]; simpl; rewrite ?respond_state.
  - left. unfold signup. destruct (user_by_email _ _); [reflexivity|].
    by destruct (add_user _ _ _ _ _) as [[??]|?].
  - left. unfold login. destruct (user_by_email _ _); [|reflexivity].
    by destruct (bcrypt_verify _ _).
  - left. unfold authenticated.
    destruct (get_current_user environ c env); [|reflexivity].
    unfold get_current_user_info. by destruct (user_by_id _ _).
  - unfold authenticated.
    destruct (get_current_user environ c env); [|by left].
    unfold generate_report, generate_report_body, create_report.
    destruct (AI.generate_report_content _ _); [|by left].
    destruct (username_of _); [|by left].
    destruct (io_error env); [by left|]. right. by eexists _, _.
  - left. unfold authenticated.
    destruct (get_current_user environ c env); [|reflexivity].
    unfold download_report. by destruct (negb _).
  - by left.
  - by left.
Qed.

Section StoreInvariants.

Variable environ : gmap string string.
Variable bcrypt_hash : string → string → string.
Variable bcrypt_verify : string → string → bool.
Variable pdf_document : string → string → string → datetime → string.

#[local] Abbreviation app_step :=
  (step environ bcrypt_hash bcrypt_verify pdf_document).

Lemma step_users_unique (st st' : State) :
  app_step st st' → users_unique (db st) → users_unique (db st').
Proof.
  intros (req & env & <-) (Hid & Hemail & Hname).
  destruct (handle_users environ bcrypt_hash bcrypt_verify pdf_document req env st)
    as [Heq | (u & Heq & Hu & He & Hn)]; unfold users_unique; rewrite Heq;
    [done|].
  rewrite !fmap_app. simpl. repeat split; apply NoDup_app; (split; [done|]);
    (split; [|apply NoDup_singleton]); intros x Hx Hx';
    apply list_elem_of_singleton in Hx'; subst x.
  - apply list_elem_of_fmap in Hx as (v & Hv & Hin).
    pose proof (next_user_id_above (db st) v Hin). lia.
  - by apply (user_by_email_none (db st) (User.email u)).
  - by apply (user_by_username_none (db st) (User.username u)).
Qed.

(** In every state the application reaches, the rows of the [users] table
    have pairwise distinct keys, emails and usernames. *)
Theorem reachable_users_unique (st : State) :
  reachable environ bcrypt_hash bcrypt_verify pdf_document st →
  users_unique (db st).
Proof.
  intros H.
  apply (rtc_ind_r (R := app_step) (λ s, users_unique (db s)) initial_state);
    [|intros st1 st2 _; apply step_users_unique|exact H].
  repeat split; apply NoDup_nil_2.
Qed.

Lemma steps_users_prefix (st st' : State) :
  rtc app_step st st' → users (db st) `prefix_of` users (db st').
Proof.
  induction 1 as [st|st st1 st2 (req & env & <-) _ IH]; [done|].
  etrans; [|exact IH].
  destruct (handle_users environ bcrypt_hash bcrypt_verify pdf_document req env st)
    as [-> | (u & -> & _)]; [done|]. by apply prefix_app_r.
Qed.

Lemma steps_files_kept (st st' : State) (p : string) :
  rtc app_step st st' → is_Some (files st !! p) → is_Some (files st' !! p).
Proof.
  induction 1 as [st|st st1 st2 (req & env & <-) _ IH]; [done|].
  intros Hp. apply IH.
  destruct (handle_files environ bcrypt_hash bcrypt_verify pdf_document req env st)
    as [-> | (q & v & ->)]; [done|].
  rewrite lookup_insert_is_Some. destruct (decide (q = p)); auto.
Qed.

(** User rows are never removed, reordered or rewritten: the table before
    any sequence of requests is a prefix of the table after it, and a row
    found by its key before is found unchanged after. *)
Theorem users_only_grow (st st' : State) (uid : Z) (u : User.t) :
  rtc app_step st st' →
  users (db st) `prefix_of` users (db st') ∧
  (user_by_id (db st) uid = Some u → user_by_id (db st') uid = Some u).
Proof.
  intros [later Hlater]%steps_users_prefix.
  split; [by exists later|].
  unfold user_by_id. rewrite Hlater, find_app. by intros ->.
Qed.

(** Files are never removed from the content store: a path that exists
    still exists after any sequence of requests. *)
Theorem files_only_grow (st st' : State) (p : string) :
  rtc app_step st st' → is_Some (files st !! p) → is_Some (files st' !! p).
Proof. apply steps_files_kept. Qed.

End StoreInvariants.

(** ** Accounts *)

Lemma user_by_id_appended (d d' : DB) (u : User.t) (later : list User.t) :
  users d' = (users d ++ u :: later)%list →
  User.id u = next_user_id d →
  user_by_id d' (User.id u) = Some u.
Proof.
  intros Hd' Hid. unfold user_by_id. rewrite Hd', find_app.
  fold (user_by_id d (User.id u)). rewrite user_by_id_none.
  - simpl. by rewrite Z.eqb_refl.
  - intros v Hv. pose proof (next_user_id_above d v Hv). lia.
Qed.

Lemma user_by_email_appended (d d' : DB) (u : User.t) (later : list User.t) :
  users d' = (users d ++ u :: later)%list →
  user_by_email d (User.email u) = None →
  user_by_email d' (User.email u) = Some u.
Proof.
  intros Hd' Hnone. unfold user_by_email. rewrite Hd', find_app.
  fold (user_by_email d (User.email u)). rewrite Hnone.
  simpl. by rewrite String.eqb_refl.
Qed.

Section Accounts.

Variable environ : gmap string string.
Variable bcrypt_hash : string → string → string.
Variable bcrypt_verify : string → string → bool.
Variable pdf_document : string → string → string → datetime → string.

#[local] Abbreviation app :=
  (handle environ bcrypt_hash bcrypt_verify pdf_document).
#[local] Abbreviation app_steps :=
  (rtc (step environ bcrypt_hash bcrypt_verify pdf_document)).

(** The token and the profile that [signup] and [login] answer for a row. *)
Lemma auth_response_ok (env : Env) (u : User.t) :
  auth_response environ env u
  = Ok {| access_token :=
            Jwt.JWS ALGORITHM (SECRET_KEY environ)
              (issued_claims (utcnow_exp env) (utcnow_iat env) (User.id u));
          token_type := "bearer";
          user := public u |}.
Proof. unfold auth_response. by rewrite encode_token_ok. Qed.

(** What a successful signup has checked, stored and answered. *)
Lemma signup_ok (request : UserCreate) (env : Env) (st st' : State)
    (resp : AuthResponse) :
  signup environ bcrypt_hash request env st = (Ok resp, st') →
  ∃ u,
    user_by_email (db st) (uc_email request) = None ∧
    user_by_username (db st) (uc_username request) = None ∧
    u = {| User.id := next_user_id (db st);
           User.email := uc_email request;
           User.username := uc_username request;
           User.hashed_password := bcrypt_hash (salt env) (uc_password request);
           User.created_at := utcnow_created env |} ∧
    st' = set_db st {| users := users (db st) ++ [u]; reports := reports (db st) |} ∧
    resp = {| access_token :=
                Jwt.JWS ALGORITHM (SECRET_KEY environ)
                  (issued_claims (utcnow_exp env) (utcnow_iat env) (User.id u));
              token_type := "bearer";
              user := public u |}.
Proof.
  unfold signup.
  destruct (user_by_email (db st) (uc_email request)) eqn:He; [discriminate|].
  destruct (add_user _ _ _ _ _) as [[db_user d]|e] eqn:Hadd; [|discriminate].
  rewrite auth_response_ok. intros [= <- <-].
  apply add_user_ok in Hadd as (_ & Hn & -> & ->).
  eexists. by repeat split.
Qed.

(** Signup is all or nothing: when it fails the state is untouched; when it
    succeeds, neither the email nor the username was taken, exactly one row
    has been appended -- with the next key, the submitted email and
    username and the hash of the password -- and the answer carries that
    row's profile and a token issued for its key. *)
Theorem signup_all_or_nothing (request : UserCreate) (env : Env)
    (st st' : State) (r : result AuthResponse) :
  signup environ bcrypt_hash request env st = (r, st') →
  match r with
  | Raise _ => st' = st
  | Ok resp =>
      ∃ u,
        user_by_email (db st) (uc_email request) = None ∧
        user_by_username (db st) (uc_username request) = None ∧
        u = {| User.id := next_user_id (db st);
               User.email := uc_email request;
               User.username := uc_username request;
               User.hashed_password :=
                 bcrypt_hash (salt env) (uc_password request);
               User.created_at := utcnow_created env |} ∧
        st' = set_db st {| users := users (db st) ++ [u];
                           reports := reports (db st) |} ∧
        resp = {| access_token :=
                    Jwt.JWS ALGORITHM (SECRET_KEY environ)
                      (issued_claims (utcnow_exp env) (utcnow_iat env) (User.id u));
                  token_type := "bearer";
                  user := public u |}
  end.
Proof.
  destruct r as [resp|e]; [apply signup_ok|].
  unfold signup.
  destruct (user_by_email (db st) (uc_email request)); [by intros [= _ <-]|].
  destruct (add_user _ _ _ _ _) as [[db_user d]|e']; [|by intros [= _ <-]].
  by rewrite auth_response_ok.
Qed.

(** The token answered by a signup authenticates as the new user: presented
    to [/auth/me] between its issued-at second and its expiry, after any
    further requests, it gives back the profile the signup answered. *)
Theorem signup_then_whoami (request : UserCreate) (env env' : Env)
    (st st' st'' : State) (resp : AuthResponse) :
  signup environ bcrypt_hash request env st = (Ok resp, st') →
  app_steps st' st'' →
  Jwt.timegm (utcnow_iat env) * 1000000 <= decode_now env'
    < (Jwt.timegm (utcnow_exp env) + 30 * 60) * 1000000 →
  app (Me (access_token resp)) env' st'' = (Ok (RUser (user resp)), st'').
Proof.
  intros (u & _ & _ & Hu & -> & ->)%signup_ok Hsteps Hnow.
  destruct (steps_users_prefix _ _ _ _ _ _ Hsteps) as [later Hlater].
  simpl in Hlater. rewrite <- app_assoc in Hlater. simpl in Hlater.
  unfold handle, authenticated, get_current_user. simpl.
  rewrite decode_token_issued.
  rewrite (proj2 (Z.ltb_ge _ _)), (proj2 (Z.leb_gt _ _)) by lia. simpl.
  unfold get_current_user_info.
  rewrite (user_by_id_appended (db st) (db st'') u later Hlater);
    [reflexivity | by rewrite Hu].
Qed.

(** After a signup, and any further requests, a login with the same email
    and password succeeds -- provided the hasher verifies what it hashed --
    and answers the same profile. *)
Theorem signup_then_login (request : UserCreate) (env env' : Env)
    (st st' st'' : State) (resp : AuthResponse) :
  signup environ bcrypt_hash request env st = (Ok resp, st') →
  app_steps st' st'' →
  bcrypt_verify (uc_password request)
    (bcrypt_hash (salt env) (uc_password request)) = true →
  ∃ resp',
    app (Login {| ul_email := uc_email request;
                  ul_password := uc_password request |}) env' st''
    = (Ok (RAuth resp'), st'') ∧
    user resp' = user resp.
Proof.
  intros (u & He & _ & Hu & -> & ->)%signup_ok Hsteps Hverify.
  destruct (steps_users_prefix _ _ _ _ _ _ Hsteps) as [later Hlater].
  simpl in Hlater. rewrite <- app_assoc in Hlater. simpl in Hlater.
  unfold handle, login. simpl.
  assert (Hfind : user_by_email (db st'') (uc_email request) = Some u).
  { replace (uc_email request) with (User.email u) by by rewrite Hu.
    apply (user_by_email_appended (db st) (db st'') u later Hlater).
    by rewrite Hu. }
  rewrite Hfind.
  replace (User.hashed_password u)
    with (bcrypt_hash (salt env) (uc_password request)) by by rewrite Hu.
  rewrite Hverify, auth_response_ok. simpl. by eexists.
Qed.

(** A login never changes the state.  When it succeeds, the email is that
    of a row whose hash verifies the password, and the answer is that row's
    profile; when it fails, the response is the same 401 whether the email
    is unknown or the password is wrong. *)
Theorem login_outcome (request : UserLogin) (env : Env) (st st' : State)
    (r : result AuthResponse) :
  login environ bcrypt_verify request env st = (r, st') →
  st' = st ∧
  match r with
  | Ok resp =>
      ∃ u, user_by_email (db st) (ul_email request) = Some u ∧
           bcrypt_verify (ul_password request) (User.hashed_password u) = true ∧
           user resp = public u
  | Raise e =>
      e = HTTPException HTTP_401_UNAUTHORIZED "Invalid credentials" ∧
      match user_by_email (db st) (ul_email request) with
      | Some u => bcrypt_verify (ul_password request) (User.hashed_password u) = false
      | None => True
      end
  end.
Proof.
  unfold login.
  destruct (user_by_email (db st) (ul_email request)) as [u|];
    [|by intros [= <- <-]].
  destruct (bcrypt_verify _ _) eqn:Hv; [|by intros [= <- <-]].
  rewrite auth_response_ok. intros [= <- <-]. split; [done|]. by exists u.
Qed.

(** Without a token that validates, the routes behind [get_current_user]
    answer 401 and do nothing: no profile, no report, no download. *)
Theorem invalid_token_rejected (req : request) (c : Jwt.token) (env : Env)
    (st : State) :
  credentials_of req = Some c →
  decode_token environ c (decode_now env) = Ok None →
  app req env st
  = (Raise (HTTPException HTTP_401_UNAUTHORIZED "Invalid token"), st).
Proof.
  intros Hc Hd.
  destruct req; simpl in Hc; try discriminate; injection Hc as ->;
    unfold handle, authenticated, get_current_user; by rewrite Hd.
Qed.

End Accounts.

(** ** Reports *)

Lemma digits_of_width_length (w : nat) (s : string) :
  digits_of_width w s = true → String.length s = w.
Proof. unfold digits_of_width. intros [H _]%andb_prop. by apply Nat.eqb_eq. Qed.

Lemma strftime_stamp_length (dt : datetime) :
  datetime_valid dt → String.length (strftime_stamp dt) = 15%nat.
Proof.
  intros (Hs & Hd & Ht)%strftime_stamp_shape.
  rewrite Hs, !length_append.
  apply digits_of_width_length in Hd, Ht.
  rewrite !length_append in Hd, Ht. simpl. lia.
Qed.

(** A report filename determines the user name and the stamp it was built
    from, for stamps of one length. *)
Lemma report_filename_inj (name1 name2 stamp1 stamp2 : string) :
  String.length stamp1 = String.length stamp2 →
  "report_" +:+ name1 +:+ "_" +:+ stamp1 +:+ ".pdf"
  = "report_" +:+ name2 +:+ "_" +:+ stamp2 +:+ ".pdf" →
  name1 = name2 ∧ stamp1 = stamp2.
Proof.
  intros Hlen H. apply append_inj_l in H.
  assert (Hn : String.length name1 = String.length name2).
  { apply (f_equal String.length) in H. rewrite !length_append in H.
    simpl in H. lia. }
  pose proof (append_inj_same_length _ _ _ _ Hn H) as <-.
  split; [reflexivity|].
  apply append_inj_l in H. apply (append_inj_l "_") in H.
  by apply append_inj_same_length in H.
Qed.

Section Reports.

Variable environ : gmap string string.
Variable bcrypt_hash : string → string → string.
Variable bcrypt_verify : string → string → bool.
Variable pdf_document : string → string → string → datetime → string.

#[local] Abbreviation backend :=
  (handle environ bcrypt_hash bcrypt_verify pdf_document).
#[local] Abbreviation backend_steps :=
  (rtc (step environ bcrypt_hash bcrypt_verify pdf_document)).

(** What a successful generation has read, written and answered. *)
Lemma generate_report_ok (body : ReportRequest) (uid : Z) (env : Env)
    (st st' : State) (h : ReportHandle) :
  generate_report pdf_document body uid env st = (Ok h, st') →
  ∃ u content,
    user_by_id (db st) uid = Some u ∧
    AI.generate_report_content (ai_service env) (rr_topic body) = Ok content ∧
    rh_filename h
      = "report_" +:+ User.username u +:+ "_" +:+ strftime_stamp (now env)
          +:+ ".pdf" ∧
    download_url h = "/download/" +:+ rh_filename h ∧
    message h = "Report generated successfully" ∧
    io_error env = None ∧
    st' = set_files st
            (<["reports/" +:+ rh_filename h
               := pdf_document (rr_topic body) content (User.username u) (now env)]>
               (files st)).
Proof.
  unfold generate_report, generate_report_body, create_report.
  destruct (AI.generate_report_content _ _) as [content|e]; [|discriminate].
  destruct (user_by_id (db st) uid) as [u|]; [|discriminate].
  simpl. destruct (io_error env); [discriminate|].
  intros [= <- <-]. by exists u, content.
Qed.

(** Generation is all or nothing.  A failure -- an unknown user, a file
    that cannot be written -- is answered by one 500 response whose detail
    starts with the same words, and leaves the state untouched; a success
    writes exactly one file, under [reports/] and the answered name, and
    changes nothing else. *)
Theorem generate_report_all_or_nothing (body : ReportRequest) (uid : Z)
    (env : Env) (st st' : State) (r : result ReportHandle) :
  generate_report pdf_document body uid env st = (r, st') →
  match r with
  | Raise e =>
      st' = st ∧
      ∃ cause, e = HTTPException HTTP_500_INTERNAL_SERVER_ERROR
                     ("Error generating report: " +:+ cause)
  | Ok h =>
      db st' = db st ∧
      ∃ artifact,
        files st' = <["reports/" +:+ rh_filename h := artifact]> (files st) ∧
        ∀ p, p ≠ "reports/" +:+ rh_filename h → files st' !! p = files st !! p
  end.
Proof.
  destruct r as [h|e].
  - intros (u & content & _ & _ & _ & _ & _ & _ & ->)%generate_report_ok.
    split; [reflexivity|]. eexists. split; [reflexivity|].
    intros p Hp. simpl. by rewrite lookup_insert_ne.
  - unfold generate_report, generate_report_body, create_report.
    destruct (AI.generate_report_content _ _) as [content|e'];
      [|intros [= <- <-]; eauto].
    destruct (username_of _) as [name|e']; [|intros [= <- <-]; eauto].
    destruct (io_error env); [|discriminate].
    intros [= <- <-]. eauto.
Qed.

(** A generated report can be retrieved: once a generation has answered a
    handle, and after any further requests, a download of the handle's
    filename with any valid token succeeds. *)
Theorem generate_then_download (c c' : Jwt.token) (body : ReportRequest)
    (env env' : Env) (st st' st'' : State) (h : ReportHandle) (uid' : Z) :
  backend (GenerateReport c body) env st = (Ok (RHandle h), st') →
  backend_steps st' st'' →
  get_current_user environ c' env' = Ok uid' →
  ∃ f, backend (Download c' (rh_filename h)) env' st'' = (Ok (RFile f), st'') ∧
       fr_filename f = rh_filename h ∧
       is_Some (response_body st'' f).
Proof.
  intros Hgen Hsteps Hc'.
  unfold handle, authenticated in Hgen.
  destruct (get_current_user environ c env) as [uid|e]; [|discriminate].
  destruct (generate_report pdf_document body uid env st) as [[h0|e] st0] eqn:Hg;
    [|discriminate].
  injection Hgen as -> ->.
  apply generate_report_ok in Hg as (u & content & _ & _ & _ & _ & _ & _ & Hst').
  assert (Hfile : is_Some (files st'' !! ("reports/" +:+ rh_filename h))).
  { apply (steps_files_kept _ _ _ _ st' st'' _ Hsteps).
    rewrite Hst'. simpl. rewrite lookup_insert_eq. by eexists. }
  unfold handle, authenticated. rewrite Hc'.
  unfold download_report, path_exists.
  rewrite bool_decide_eq_true_2 by done. simpl.
  eexists. split; [reflexivity|]. split; [reflexivity|]. exact Hfile.
Qed.

(** Reports of different users never share a file: two generations that
    answer the same filename were made for the same user name, at the same
    second of the local clock. *)
Theorem report_filename_identifies_user (body1 body2 : ReportRequest)
    (uid1 uid2 : Z) (env1 env2 : Env) (st1 st1' st2 st2' : State)
    (h1 h2 : ReportHandle) :
  datetime_valid (now env1) → datetime_valid (now env2) →
  generate_report pdf_document body1 uid1 env1 st1 = (Ok h1, st1') →
  generate_report pdf_document body2 uid2 env2 st2 = (Ok h2, st2') →
  rh_filename h1 = rh_filename h2 →
  ∃ u1 u2,
    user_by_id (db st1) uid1 = Some u1 ∧ user_by_id (db st2) uid2 = Some u2 ∧
    User.username u1 = User.username u2 ∧
    strftime_stamp (now env1) = strftime_stamp (now env2).
Proof.
  intros Hdt1 Hdt2
    (u1 & c1 & Hu1 & _ & Hn1 & _)%generate_report_ok
    (u2 & c2 & Hu2 & _ & Hn2 & _)%generate_report_ok Heq.
  exists u1, u2. split; [done|]. split; [done|].
  rewrite Hn1, Hn2 in Heq.
  apply report_filename_inj in Heq; [done|].
  by rewrite !strftime_stamp_length.
Qed.

(** The filename has the resolution of one second and ignores the topic:
    two reports generated for one user within the same second of the local
    clock get the same filename, and the file then holds the second
    report only. *)
Theorem same_second_reports_share_a_file (body1 body2 : ReportRequest)
    (uid : Z) (env1 env2 : Env) (st st1 st2 : State) (h1 h2 : ReportHandle) :
  generate_report pdf_document body1 uid env1 st = (Ok h1, st1) →
  generate_report pdf_document body2 uid env2 st1 = (Ok h2, st2) →
  now env1 = now env2 →
  rh_filename h2 = rh_filename h1 ∧
  ∃ u content2,
    user_by_id (db st) uid = Some u ∧
    AI.generate_report_content (ai_service env2) (rr_topic body2) = Ok content2 ∧
    files st2 !! ("reports/" +:+ rh_filename h1)
    = Some (pdf_document (rr_topic body2) content2 (User.username u) (now env2)).
Proof.
  intros (u1 & c1 & Hu1 & _ & Hn1 & _ & _ & _ & ->)%generate_report_ok
         (u2 & c2 & Hu2 & Hc2 & Hn2 & _ & _ & _ & ->)%generate_report_ok Hnow.
  simpl in Hu2. rewrite Hu1 in Hu2. injection Hu2 as <-.
  assert (Hsame : rh_filename h2 = rh_filename h1)
    by by rewrite Hn1, Hn2, Hnow.
  split; [exact Hsame|].
  exists u1, c2. split; [done|]. split; [done|].
  simpl. rewrite Hsame. apply lookup_insert_eq.
Qed.

End Reports.

(** ** Configuration *)



(** [config.py] reads [SECRET_KEY] after its [load_dotenv()], [auth.py]
    before any: a variable of the process environment is the key of both;
    without one, [config.py] takes the [.env] value or its own default,
    which is not the default of [auth.py]; and whenever the two keys
    differ, a token signed with the key of [config.py] is refused by the
    token service. *)
Theorem config_secret_key_vs_auth (environ dotenv : gmap string string)
    (alg : string) (claims : gmap string Jwt.jval) (now : Z) :
  let config_key := Config.SECRET_KEY (load_dotenv dotenv environ) in
  (∀ key, environ !! "SECRET_KEY" = Some key →
          config_key = key ∧ SECRET_KEY environ = key) ∧
  (∀ key, environ !! "SECRET_KEY" = None → dotenv !! "SECRET_KEY" = Some key →
          config_key = key) ∧
  (environ !! "SECRET_KEY" = None → dotenv !! "SECRET_KEY" = None →
   config_key ≠ SECRET_KEY environ) ∧
  (config_key ≠ SECRET_KEY environ →
   decode_token environ (Jwt.JWS alg config_key claims) now = Ok None).
Proof.
  intros config_key. subst config_key.
  unfold Config.SECRET_KEY, SECRET_KEY, getenv_default, load_dotenv.
  rewrite lookup_union. split; [|split; [|split]].
  - intros key ->. by destruct (dotenv !! "SECRET_KEY").
  - by intros key -> ->.
  - intros -> ->. simpl. discriminate.
  - intros Hne.
    match goal with
    | |- decode_token _ (Jwt.JWS _ ?k _) _ = _ =>
        destruct (decode_other_secret environ alg k claims now) as [e He]
    end.
    + exact Hne.
    + by apply decode_token_rejected with e.
Qed.

Lemma config_secret_key_vs_auth_witness :
  Config.SECRET_KEY (load_dotenv (<["SECRET_KEY" := "from-dotenv"]> ∅) ∅)
  = "from-dotenv" ∧
  decode_token ∅
    (Jwt.JWS "HS256"
       (Config.SECRET_KEY (load_dotenv (<["SECRET_KEY" := "from-dotenv"]> ∅) ∅))
       (<["sub" := Jwt.JStr "1"]> ∅)) 0
  = Ok None.
Proof.
  destruct (config_secret_key_vs_auth ∅ (<["SECRET_KEY" := "from-dotenv"]> ∅)
              "HS256" (<["sub" := Jwt.JStr "1"]> ∅) 0)
    as (_ & Hdotenv & _ & Hrefused).
  split.
  - apply Hdotenv; reflexivity.
  - apply Hrefused. vm_compute. discriminate.
Defined.

(** ** The further properties in a sample session *)

Lemma reachable_users_unique_witness :
  let st := snd (Scenario.serve (Signup Scenario.alice_signup) Sample.env
                   initial_state) in
  reachable ∅ Sample.hash Sample.verify Sample.pdf st ∧ users_unique (db st).
Proof.
  intros st.
  assert (Hst : reachable ∅ Sample.hash Sample.verify Sample.pdf st).
  { apply rtc_once. eexists _, Sample.env. reflexivity. }
  split; [exact Hst|].
  exact (reachable_users_unique ∅ Sample.hash Sample.verify Sample.pdf st Hst).
Defined.

Lemma users_only_grow_witness :
  let st := snd (Scenario.serve (Signup Scenario.alice_signup) Sample.env
                   Sample.store) in
  user_by_id (db st) 1 = Some Sample.alice.
Proof.
  intros st.
  apply (users_only_grow ∅ Sample.hash Sample.verify Sample.pdf
           Sample.store st 1 Sample.alice).
  - apply rtc_once. eexists _, Sample.env. reflexivity.
  - reflexivity.
Defined.

Lemma files_only_grow_witness :
  let st := snd (Scenario.serve
                   (GenerateReport (Sample.token_for 1) Scenario.fusion)
                   Sample.env Sample.store) in
  is_Some (files st !! "reports/report_alice_20240517_103045.pdf").
Proof.
  intros st.
  apply (files_only_grow ∅ Sample.hash Sample.verify Sample.pdf Sample.store st).
  - apply rtc_once. eexists _, Sample.env. reflexivity.
  - vm_compute. by eexists.
Defined.

Lemma signup_all_or_nothing_witness :
  ∃ resp st',
    signup ∅ Sample.hash Scenario.alice_signup Sample.env initial_state
    = (Ok resp, st') ∧
    ∃ u, users (db st') = [u] ∧ user resp = public u ∧ User.id u = 1.
Proof.
  destruct (signup ∅ Sample.hash Scenario.alice_signup Sample.env initial_state)
    as [[resp|e] st'] eqn:H; [|vm_compute in H; discriminate H].
  exists resp, st'. split; [reflexivity|].
  destruct (signup_all_or_nothing ∅ Sample.hash Scenario.alice_signup Sample.env
              initial_state st' (Ok resp) H) as (u & _ & _ & -> & -> & ->).
  eexists. by repeat split.
Defined.

Lemma signup_then_whoami_witness :
  ∃ resp st',
    signup ∅ Sample.hash Scenario.alice_signup Sample.env initial_state
    = (Ok resp, st') ∧
    Scenario.serve (Me (access_token resp)) Sample.env st'
    = (Ok (RUser (user resp)), st').
Proof.
  destruct (signup ∅ Sample.hash Scenario.alice_signup Sample.env initial_state)
    as [[resp|e] st'] eqn:H; [|vm_compute in H; discriminate H].
  exists resp, st'. split; [reflexivity|].
  apply (signup_then_whoami ∅ Sample.hash Sample.verify Sample.pdf
           Scenario.alice_signup Sample.env Sample.env initial_state st' st'
           resp H).
  - apply rtc_refl.
  - split; [vm_compute; discriminate | vm_compute; reflexivity].
Defined.

Lemma signup_then_login_witness :
  ∃ resp st' resp',
    signup ∅ Sample.hash Scenario.alice_signup Sample.env initial_state
    = (Ok resp, st') ∧
    Scenario.serve (Login Scenario.alice_login) Sample.env st'
    = (Ok (RAuth resp'), st') ∧
    user resp' = user resp.
Proof.
  destruct (signup ∅ Sample.hash Scenario.alice_signup Sample.env initial_state)
    as [[resp|e] st'] eqn:H; [|vm_compute in H; discriminate H].
  destruct (signup_then_login ∅ Sample.hash Sample.verify Sample.pdf
              Scenario.alice_signup Sample.env Sample.env initial_state st' st'
              resp H (rtc_refl _ _) eq_refl) as (resp' & Hlogin & Huser).
  exists resp, st', resp'.
  split; [reflexivity|]. split; [exact Hlogin | exact Huser].
Defined.

Lemma login_outcome_witness :
  login ∅ Sample.verify Scenario.wrong_password Sample.env Sample.store
  = (Raise (HTTPException 401 "Invalid credentials"), Sample.store) ∧
  Sample.verify "looking-glass" (User.hashed_password Sample.alice) = false.
Proof.
  assert (H : login ∅ Sample.verify Scenario.wrong_password Sample.env Sample.store
              = (Raise (HTTPException 401 "Invalid credentials"), Sample.store))
    by reflexivity.
  split; [exact H|].
  exact (proj2 (proj2 (login_outcome ∅ Sample.verify Scenario.wrong_password
                         Sample.env Sample.store Sample.store _ H))).
Defined.

Lemma invalid_token_rejected_witness :
  Scenario.serve
    (Download (Jwt.Malformed "Bearer") "report_alice_20240517_103045.pdf")
    Sample.env Sample.store
  = (Raise (HTTPException 401 "Invalid token"), Sample.store).
Proof.
  apply (invalid_token_rejected ∅ Sample.hash Sample.verify Sample.pdf
           (Download (Jwt.Malformed "Bearer") "report_alice_20240517_103045.pdf")
           (Jwt.Malformed "Bearer")); reflexivity.
Defined.

Lemma generate_report_all_or_nothing_witness :
  ∃ e, generate_report Sample.pdf Scenario.quantum 1 Scenario.disk_full Sample.store
       = (Raise e, Sample.store) ∧
       ∃ cause, e = HTTPException 500 ("Error generating report: " +:+ cause).
Proof.
  destruct (generate_report Sample.pdf Scenario.quantum 1 Scenario.disk_full
              Sample.store) as [[h|e] st'] eqn:H;
    [vm_compute in H; discriminate H|].
  destruct (generate_report_all_or_nothing Sample.pdf Scenario.quantum 1
              Scenario.disk_full Sample.store st' (Raise e) H) as [-> Hcause].
  by exists e.
Defined.

Lemma generate_then_download_witness :
  ∃ h st' f,
    Scenario.serve (GenerateReport (Sample.token_for 1) Scenario.quantum)
      Sample.env Sample.store = (Ok (RHandle h), st') ∧
    Scenario.serve (Download (Sample.token_for 2) (rh_filename h)) Sample.env st'
    = (Ok (RFile f), st') ∧
    is_Some (response_body st' f).
Proof.
  unfold Scenario.serve.
  destruct (handle ∅ Sample.hash Sample.verify Sample.pdf
              (GenerateReport (Sample.token_for 1) Scenario.quantum)
              Sample.env Sample.store) as [[r|e] st'] eqn:H;
    [|vm_compute in H; discriminate H].
  destruct r as [a|p|h|f|j]; try (vm_compute in H; discriminate H).
  assert (Hc : get_current_user ∅ (Sample.token_for 2) Sample.env = Ok 2)
    by (vm_compute; reflexivity).
  destruct (generate_then_download ∅ Sample.hash Sample.verify Sample.pdf
              _ (Sample.token_for 2) _ _ Sample.env _ st' st' h 2
              H (rtc_refl _ _) Hc) as (f & Hd & _ & Hbody).
  by exists h, st', f.
Defined.

Lemma report_filename_identifies_user_witness :
  ∃ h st',
    generate_report Sample.pdf Scenario.quantum 1 Sample.env Sample.store
    = (Ok h, st') ∧
    ∃ u, user_by_id (db Sample.store) 1 = Some u ∧
         User.username u = User.username Sample.alice.
Proof.
  assert (Hdt : datetime_valid (now Sample.env)).
  { unfold datetime_valid. simpl. vm_compute. intuition discriminate. }
  destruct (generate_report Sample.pdf Scenario.quantum 1 Sample.env Sample.store)
    as [[h|e] st'] eqn:H; [|vm_compute in H; discriminate H].
  exists h, st'. split; [reflexivity|].
  destruct (report_filename_identifies_user Sample.pdf
              Scenario.quantum Scenario.quantum 1 1 Sample.env Sample.env
              Sample.store st' Sample.store st' h h Hdt Hdt H H eq_refl)
    as (u1 & u2 & Hu1 & Hu2 & Hname & _).
  exists u1. split; [exact Hu1|].
  vm_compute in Hu2. injection Hu2 as <-. exact Hname.
Defined.

Lemma same_second_reports_share_a_file_witness :
  ∃ h1 st1 h2 st2,
    generate_report Sample.pdf Scenario.quantum 1 Sample.env Sample.store
    = (Ok h1, st1) ∧
    generate_report Sample.pdf Scenario.fusion 1 Sample.env st1 = (Ok h2, st2) ∧
    rh_filename h2 = rh_filename h1.
Proof.
  destruct (generate_report Sample.pdf Scenario.quantum 1 Sample.env Sample.store)
    as [[h1|e] st1] eqn:H1; [|vm_compute in H1; discriminate H1].
  destruct (generate_report Sample.pdf Scenario.fusion 1 Sample.env st1)
    as [[h2|e] st2] eqn:H2.
  - exists h1, st1, h2, st2. split; [reflexivity|]. split; [exact H2|].
    exact (proj1 (same_second_reports_share_a_file Sample.pdf
                    Scenario.quantum Scenario.fusion 1 Sample.env Sample.env
                    Sample.store st1 st2 h1 h2 H1 H2 eq_refl)).
  - exfalso.
    apply (f_equal snd) in H1. simpl in H1. subst st1.
    vm_compute in H2. discriminate H2.
Defined.
